(** * gousb: the Device / Config claim state machine

    A shallow embedding of [usb/device.go] and [usb/config.go].

    Go objects reached through pointers ([*Device], [*Config]) live in a
    store indexed by addresses; a method receives the address of its
    receiver.  The libusb layer is the Go interface value [libusb]: here a
    type class over an abstract native state.  Every call into libusb and
    every mutex operation is appended to an event log, so that statements
    such as "no native call is made" or "the release is issued before the
    error is returned" are statements about that log.

    Errors are kept as the format string and the values handed to
    [fmt.Errorf]; the [String] methods, which only render those values,
    are not embedded.

    Naming: the Go selector [T.f] (field or method) is written [T_f]. *)

From stdpp Require Import gmap strings list fin_maps.
From Stdlib Require Import ZArith DecimalString DecimalZ DecimalPos.

Local Open Scope Z_scope.

(** ** Values *)

(** Go's [uint8(x)] on an [int]: the low eight bits. *)
Definition uint8 (x : Z) : Z := x mod 256.

(** Go's [len(s)] on a slice, as an [int]. *)
Definition len {A} (s : list A) : Z := Z.of_nat (length s).

Section Model.

(** The alternate-setting descriptor type ([InterfaceSetting]) is declared
    outside the two files; the code only copies values of it. *)
Context {InterfaceSetting : Type}.

(** [InterfaceInfo]: of its fields the code reads [AltSettings] only. *)
Record InterfaceInfo := mkInterfaceInfo {
  InterfaceInfo_AltSettings : list InterfaceSetting
}.

Record ConfigInfo := mkConfigInfo {
  ConfigInfo_Config : Z;
  ConfigInfo_SelfPowered : bool;
  ConfigInfo_RemoteWakeup : bool;
  ConfigInfo_MaxPower : Z;
  ConfigInfo_Interfaces : list InterfaceInfo
}.

(** The zero value of [ConfigInfo], the [Info] of a fresh [Config{}]. *)
Definition ConfigInfo_zero : ConfigInfo :=
  mkConfigInfo 0 false false 0 [].

(** [Descriptor]: of its fields the code reads [Configs] only. *)
Record Descriptor := mkDescriptor {
  Descriptor_Configs : list ConfigInfo
}.

(** [Device].  [handle] is a [*libusbDevHandle]: [None] is the nil
    pointer.  The embedded [*Descriptor] is set when the device is opened
    and never written here: it is held by value.  [claimed] is a
    [*Config]: an address in the store or nil.  The mutex [mu] carries no
    data; its operations appear in the log. *)
Record Device := mkDevice {
  Device_handle : option nat;
  Device_Descriptor : Descriptor;
  Device_claimed : option nat
}.

(** [Config].  [dev] is the address of the owning [Device] (an address
    absent from the store stands for nil); [claimed] is the [map[int]bool]
    of claimed interface numbers, made by [Device.Config]. *)
Record Config := mkConfig {
  Config_Info : ConfigInfo;
  Config_ControlTimeout : Z;
  Config_dev : nat;
  Config_claimed : gmap Z bool
}.

(** The value built by the literal [&Interface{Setting: ..., config: c}]. *)
Record Interface := mkInterface {
  Interface_Setting : InterfaceSetting;
  Interface_config : nat
}.

(** ** Errors

    [fmt.Errorf(format, args...)] is kept unrendered: the format string
    and the values passed to it.  [NativeError] is an error value that
    originates in libusb. *)
Inductive error : Type :=
| NativeError (code : Z)
| Errorf (format : string) (args : list arg)
with arg : Type :=
| AInt (n : Z)
| AInts (ns : list Z)
| ADevice (d : nat)
| AConfig (c : nat)
| AInterfaceInfo (i : InterfaceInfo)
| AError (e : error).

(** ** The event log *)

Inductive call : Type :=
| CallReset (h : option nat)
| CallGetConfig (h : option nat)
| CallSetConfig (h : option nat) (cfg : Z)
| CallClose (h : option nat)
| CallGetStringDesc (h : option nat) (descIndex : Z)
| CallSetAutoDetach (h : option nat) (val : Z)
| CallControl (h : option nat) (timeout rType request val idx : Z)
              (data : list Z)
| CallClaim (h : option nat) (intf : Z)
| CallSetAlt (h : option nat) (intf alt : Z)
| CallRelease (h : option nat) (intf : Z).

Inductive mutex : Type :=
| DeviceMu (d : nat)
| ConfigMu (c : nat).

Inductive event : Type :=
| Native (c : call)
| Lock (m : mutex)
| Unlock (m : mutex).

(** ** The libusb interface

    The package-level [libusb] value, as the methods the two files call.
    [N] is the state of the native layer, which only these methods see. *)
Class Libusb (N : Type) := {
  libusb_reset : option nat -> N -> option error * N;
  libusb_getConfig : option nat -> N -> (Z * option error) * N;
  libusb_setConfig : option nat -> Z -> N -> option error * N;
  libusb_close : option nat -> N -> N;
  libusb_getStringDesc : option nat -> Z -> N -> (string * option error) * N;
  libusb_setAutoDetach : option nat -> Z -> N -> option error * N;
  libusb_control :
    option nat -> Z -> Z -> Z -> Z -> Z -> list Z -> N ->
    (Z * option error) * N;
  libusb_claim : option nat -> Z -> N -> option error * N;
  libusb_setAlt : option nat -> Z -> Z -> N -> option error * N;
  libusb_release : option nat -> Z -> N -> option error * N
}.

(** Go leaves the order of [for k := range m] unspecified: the runtime
    picks an enumeration of the keys of the map. *)
Class GoRuntime := {
  range_keys : gmap Z bool -> list Z;
  range_keys_perm : forall m, range_keys m ≡ₚ (map_to_list m).*1
}.

(** ** The world *)

Record World (N : Type) := mkWorld {
  devices : gmap nat Device;
  configs : gmap nat Config;
  native : N;
  trace : list event
}.

End Model.

Arguments InterfaceInfo : clear implicits.
Arguments ConfigInfo : clear implicits.
Arguments Descriptor : clear implicits.
Arguments Device : clear implicits.
Arguments Config : clear implicits.
Arguments Interface : clear implicits.
Arguments error : clear implicits.
Arguments arg : clear implicits.
Arguments Libusb : clear implicits.
Arguments World : clear implicits.
Arguments mkWorld {InterfaceSetting N}.
Arguments devices {InterfaceSetting N}.
Arguments configs {InterfaceSetting N}.
Arguments native {InterfaceSetting N}.
Arguments trace {InterfaceSetting N}.

(** ** The monad of method bodies

    A method body reads and writes the world; [None] is a run-time panic
    (a nil or dangling pointer dereference, an index out of range). *)
Definition M (S N A : Type) : Type := World S N -> option (A * World S N).

Section Methods.

Context {InterfaceSetting N : Type} `{!Libusb InterfaceSetting N} `{!GoRuntime}.

Local Abbreviation World := (World InterfaceSetting N).
Local Abbreviation M := (M InterfaceSetting N).
Local Abbreviation Device := (Device InterfaceSetting).
Local Abbreviation Config := (Config InterfaceSetting).
Local Abbreviation ConfigInfo := (ConfigInfo InterfaceSetting).
Local Abbreviation error := (error InterfaceSetting).

Definition ret {A} (a : A) : M A := fun w => Some (a, w).

Definition bind {A B} (m : M A) (k : A -> M B) : M B :=
  fun w => match m w with
           | Some (a, w') => k a w'
           | None => None
           end.

Notation "x <- m ;;; k" := (bind m (fun x => k))
  (at level 100, m at next level, right associativity,
   format "'[v' x  <-  m  ;;; '/' k ']'").
Notation "m ;;; k" := (bind m (fun _ => k))
  (at level 100, right associativity).

(** *** Store and log primitives *)

Definition emit (e : event) : M unit :=
  fun w => Some (tt, mkWorld (devices w) (configs w) (native w) (trace w ++ [e])).

Definition Mutex_Lock (m : mutex) : M unit := emit (Lock m).
Definition Mutex_Unlock (m : mutex) : M unit := emit (Unlock m).

(** [mu.Lock(); defer mu.Unlock(); body]: the deferred unlock runs when
    the body returns. *)
Definition locked {A} (m : mutex) (body : M A) : M A :=
  Mutex_Lock m ;;;
  r <- body ;;;
  Mutex_Unlock m ;;;
  ret r.

Definition loadDevice (d : nat) : M Device :=
  fun w => match devices w !! d with
           | Some dev => Some (dev, w)
           | None => None
           end.

Definition storeDevice (d : nat) (dev : Device) : M unit :=
  fun w => Some (tt, mkWorld (<[d := dev]> (devices w)) (configs w) (native w) (trace w)).

Definition loadConfig (c : nat) : M Config :=
  fun w => match configs w !! c with
           | Some cfg => Some (cfg, w)
           | None => None
           end.

Definition storeConfig (c : nat) (cfg : Config) : M unit :=
  fun w => Some (tt, mkWorld (devices w) (<[c := cfg]> (configs w)) (native w) (trace w)).

(** [&Config{...}]: a fresh address. *)
Definition newConfig (cfg : Config) : M nat :=
  fun w => let c := fresh (dom (configs w)) in
           Some (c, mkWorld (devices w) (<[c := cfg]> (configs w)) (native w) (trace w)).

(** [s[i]] on a slice: panics out of range. *)
Definition index {A} (s : list A) (i : Z) : M A :=
  fun w => if (i <? 0) then None
           else match s !! Z.to_nat i with
                | Some a => Some (a, w)
                | None => None
                end.

(** A call into libusb: run it on the native state, log it. *)
Definition native_call {A} (c : call) (f : N -> A * N) : M A :=
  fun w => let '(a, n) := f (native w) in
           Some (a, mkWorld (devices w) (configs w) n (trace w ++ [Native c])).

(** *** usb/device.go *)

Definition Device_Reset (d : nat) : M (option error) :=
  locked (DeviceMu d) (
    dev <- loadDevice d ;;;
    match Device_claimed dev with
    | Some _ =>
        ret (Some (Errorf "can't reset a device with an open configuration" []))
    | None =>
        native_call (CallReset (Device_handle dev))
                    (libusb_reset (Device_handle dev))
    end).

(** [int(ret)] widens the number libusb reports; the value is kept. *)
Definition Device_ActiveConfig (d : nat) : M (Z * option error) :=
  dev <- loadDevice d ;;;
  r <- native_call (CallGetConfig (Device_handle dev))
                   (libusb_getConfig (Device_handle dev)) ;;;
  ret (fst r, snd r).

(** The loop of [Device.Config]: the first [info] of [Configs] whose
    [Config] field is [cfgNum]; [None] is [found == false]. *)
Fixpoint scanConfigs (cfgNum : Z) (cs : list ConfigInfo) : option ConfigInfo :=
  match cs with
  | [] => None
  | info :: rest =>
      if ConfigInfo_Config info =? cfgNum then Some info
      else scanConfigs cfgNum rest
  end.

Definition Device_Config (d : nat) (cfgNum : Z) : M (option nat * option error) :=
  cfg <- newConfig (mkConfig ConfigInfo_zero 0 d ∅) ;;;
  dev <- loadDevice d ;;;
  match scanConfigs cfgNum (Descriptor_Configs (Device_Descriptor dev)) with
  | None =>
      ret (None,
           Some (Errorf "configuration id %d not found in the descriptor of the device %s"
                        [AConfig cfg; ADevice d]))
  | Some info =>
      cfg0 <- loadConfig cfg ;;;
      storeConfig cfg (mkConfig info (Config_ControlTimeout cfg0)
                                (Config_dev cfg0) (Config_claimed cfg0)) ;;;
      err <- native_call (CallSetConfig (Device_handle dev) (uint8 cfgNum))
                         (libusb_setConfig (Device_handle dev) (uint8 cfgNum)) ;;;
      match err with
      | Some e =>
          ret (None,
               Some (Errorf "failed to set active config %d for the device %s: %v"
                            [AInt cfgNum; ADevice d; AError e]))
      | None =>
          locked (DeviceMu d) (
            dev' <- loadDevice d ;;;
            storeDevice d (mkDevice (Device_handle dev') (Device_Descriptor dev')
                                    (Some cfg)) ;;;
            ret (Some cfg, None))
      end
  end.

Definition Device_Close (d : nat) : M (option error) :=
  dev <- loadDevice d ;;;
  match Device_handle dev with
  | None => ret (Some (Errorf "double close on device %s" [ADevice d]))
  | Some _ =>
      locked (DeviceMu d) (
        dev <- loadDevice d ;;;
        match Device_claimed dev with
        | Some c =>
            cfg <- loadConfig c ;;;
            ret (Some (Errorf "can't release the device %s, it has an open config %s"
                              [ADevice d; AInt (ConfigInfo_Config (Config_Info cfg))]))
        | None =>
            native_call (CallClose (Device_handle dev))
                        (fun n => (tt, libusb_close (Device_handle dev) n)) ;;;
            storeDevice d (mkDevice None (Device_Descriptor dev)
                                    (Device_claimed dev)) ;;;
            ret None
        end)
  end.

Definition Device_GetStringDescriptor (d : nat) (descIndex : Z)
  : M (string * option error) :=
  dev <- loadDevice d ;;;
  native_call (CallGetStringDesc (Device_handle dev) descIndex)
              (libusb_getStringDesc (Device_handle dev) descIndex).

Definition Device_SetAutoDetach (d : nat) (autodetach : bool) : M (option error) :=
  let autodetachInt := match autodetach with true => 1 | false => 0 end in
  dev <- loadDevice d ;;;
  native_call (CallSetAutoDetach (Device_handle dev) autodetachInt)
              (libusb_setAutoDetach (Device_handle dev) autodetachInt).

(** *** usb/config.go *)

(** [for k := range c.claimed { ifs = append(ifs, k) }] *)
Definition claimedKeys (claimed : gmap Z bool) : list Z :=
  foldl (fun ifs k => ifs ++ [k]) [] (range_keys claimed).

Definition Config_Close (c : nat) : M (option error) :=
  locked (ConfigMu c) (
    cfg <- loadConfig c ;;;
    if Z.of_nat (size (Config_claimed cfg)) >? 0 then
      ret (Some (Errorf "failed to release %s, interfaces %v are still open"
                        [AConfig c; AInts (claimedKeys (Config_claimed cfg))]))
    else
      locked (DeviceMu (Config_dev cfg)) (
        dev <- loadDevice (Config_dev cfg) ;;;
        storeDevice (Config_dev cfg)
                    (mkDevice (Device_handle dev) (Device_Descriptor dev) None) ;;;
        ret None)).

(** The expression [c.dev.handle]. *)
Definition Config_dev_handle (c : nat) : M (option nat) :=
  cfg <- loadConfig c ;;;
  dev <- loadDevice (Config_dev cfg) ;;;
  ret (Device_handle dev).

Definition Config_Control (c : nat) (rType request val idx : Z) (data : list Z)
  : M (Z * option error) :=
  h <- Config_dev_handle c ;;;
  cfg <- loadConfig c ;;;
  native_call
    (CallControl h (Config_ControlTimeout cfg) rType request val idx data)
    (libusb_control h (Config_ControlTimeout cfg) rType request val idx data).

Definition Config_Interface (c : nat) (intf alt : Z)
  : M (option (Interface InterfaceSetting) * option error) :=
  cfg <- loadConfig c ;;;
  let ifs := ConfigInfo_Interfaces (Config_Info cfg) in
  if (intf <? 0) || (intf >=? len ifs) then
    ret (None,
         Some (Errorf "interface %d not found in %s. Interface number needs to be a 0-based index into the interface table, which has %d elements."
                      [AInt intf; AConfig c; AInt (len ifs)]))
  else
    ifInfo <- index ifs intf ;;;
    let alts := InterfaceInfo_AltSettings ifInfo in
    if (alt <? 0) || (alt >=? len alts) then
      ret (None,
           Some (Errorf "Inteface %d does not have alternate setting %d. Alt setting needs to be a 0-based index into the settings table, which has %d elements."
                        [AInterfaceInfo ifInfo; AInt alt; AInt (len alts)]))
    else
      h <- Config_dev_handle c ;;;
      err <- native_call (CallClaim h (uint8 intf))
                         (libusb_claim h (uint8 intf)) ;;;
      match err with
      | Some e =>
          ret (None,
               Some (Errorf "failed to claim interface %d on %s: %v"
                            [AInt intf; AConfig c; AError e]))
      | None =>
          h <- Config_dev_handle c ;;;
          err <- native_call (CallSetAlt h (uint8 intf) (uint8 alt))
                             (libusb_setAlt h (uint8 intf) (uint8 alt)) ;;;
          match err with
          | Some e =>
              h <- Config_dev_handle c ;;;
              native_call (CallRelease h (uint8 intf))
                          (libusb_release h (uint8 intf)) ;;;
              ret (None,
                   Some (Errorf "failed to set alternate config %d on interface %d of %s: %v"
                                [AInt alt; AInt intf; AConfig c; AError e]))
          | None =>
              locked (ConfigMu c) (
                cfg' <- loadConfig c ;;;
                storeConfig c (mkConfig (Config_Info cfg') (Config_ControlTimeout cfg')
                                        (Config_dev cfg')
                                        (<[intf := true]> (Config_claimed cfg'))) ;;;
                setting <- index alts alt ;;;
                ret (Some (mkInterface setting c), None))
          end
      end.

End Methods.

(** ** Reading the log *)

(** The world [w] after the native state became [n] and [evs] were logged. *)
Definition logged {S N} (w : World S N) (n : N) (evs : list event) : World S N :=
  mkWorld (devices w) (configs w) n (trace w ++ evs).

(** The libusb calls of a log, in order. *)
Fixpoint native_calls (evs : list event) : list call :=
  match evs with
  | [] => []
  | Native c :: rest => c :: native_calls rest
  | _ :: rest => native_calls rest
  end.

#[global] Instance mutex_eq_dec : EqDecision mutex.
Proof. solve_decision. Defined.

Definition is_DeviceMu (m : mutex) : bool :=
  match m with DeviceMu _ => true | ConfigMu _ => false end.

Definition is_ConfigMu (m : mutex) : bool :=
  match m with ConfigMu _ => true | DeviceMu _ => false end.

(** Unlocking [m] drops it from the mutexes held. *)
Fixpoint drop_mutex (m : mutex) (held : list mutex) : list mutex :=
  match held with
  | [] => []
  | m' :: rest => if decide (m = m') then rest else m' :: drop_mutex m rest
  end.


(** Replaying a log from the mutexes [held]: at some point a device mutex
    and a config mutex are held together. *)
Fixpoint holds_both (held : list mutex) (evs : list event) : bool :=
  (existsb is_DeviceMu held && existsb is_ConfigMu held)
  || match evs with
     | [] => false
     | Lock m :: rest => holds_both (m :: held) rest
     | Unlock m :: rest => holds_both (drop_mutex m held) rest
     | Native _ :: rest => holds_both held rest
     end.

(** ** The operations of [Device] and [Config], as one type *)

Inductive op : Type :=
| OpDeviceReset (d : nat)
| OpDeviceActiveConfig (d : nat)
| OpDeviceConfig (d : nat) (cfgNum : Z)
| OpDeviceClose (d : nat)
| OpDeviceGetStringDescriptor (d : nat) (descIndex : Z)
| OpDeviceSetAutoDetach (d : nat) (autodetach : bool)
| OpConfigClose (c : nat)
| OpConfigControl (c : nat) (rType request val idx : Z) (data : list Z)
| OpConfigInterface (c : nat) (intf alt : Z).

Section Run.

Context {InterfaceSetting N : Type} `{!Libusb InterfaceSetting N} `{!GoRuntime}.

(** Run an operation for its effect on the world. *)
Definition run_op (o : op) (w : World InterfaceSetting N)
  : option (World InterfaceSetting N) :=
  match o with
  | OpDeviceReset d => snd <$> Device_Reset d w
  | OpDeviceActiveConfig d => snd <$> Device_ActiveConfig d w
  | OpDeviceConfig d cfgNum => snd <$> Device_Config d cfgNum w
  | OpDeviceClose d => snd <$> Device_Close d w
  | OpDeviceGetStringDescriptor d i => snd <$> Device_GetStringDescriptor d i w
  | OpDeviceSetAutoDetach d b => snd <$> Device_SetAutoDetach d b w
  | OpConfigClose c => snd <$> Config_Close c w
  | OpConfigControl c rType request val idx data =>
      snd <$> Config_Control c rType request val idx data w
  | OpConfigInterface c intf alt => snd <$> Config_Interface c intf alt w
  end.

(** Run operations one after the other. *)
Fixpoint run_ops (os : list op) (w : World InterfaceSetting N)
  : option (World InterfaceSetting N) :=
  match os with
  | [] => Some w
  | o :: rest =>
      match run_op o w with
      | Some w' => run_ops rest w'
      | None => None
      end
  end.

(** Every pointer of the store points into the store. *)
Definition pointers_valid (w : World InterfaceSetting N) : Prop :=
  (forall d dev c, devices w !! d = Some dev -> Device_claimed dev = Some c ->
                   is_Some (configs w !! c))
  /\ (forall c cfg, configs w !! c = Some cfg ->
                    is_Some (devices w !! Config_dev cfg)).

End Run.

(** ** Results, rendering and lock replay *)

(** Go's [%d] on an [int]: signed decimal, no padding. *)
Definition fmt_d (n : Z) : string := NilZero.string_of_int (Z.to_int n).

(** [ConfigInfo.String]: [fmt.Sprintf("config=%d", c.Config)]. *)
Definition ConfigInfo_String {S} (c : ConfigInfo S) : string :=
  String.append "config=" (fmt_d (ConfigInfo_Config c)).

Section Rendering.

Context {InterfaceSetting N : Type}.

(** The [String] method that [c.dev.String()] selects is declared outside
    the two files: a rendering of the device, taken as given. *)
Variable Device_String : Device InterfaceSetting -> string.

(** [Config.String]: [fmt.Sprintf("%s,%s", c.dev.String(), c.Info.String())]. *)
Definition Config_String (c : nat) : M InterfaceSetting N string :=
  bind (loadConfig c) (fun cfg =>
  bind (loadDevice (Config_dev cfg)) (fun dev =>
  ret (String.append (Device_String dev)
         (String.append "," (ConfigInfo_String (Config_Info cfg)))))).

End Rendering.

Section Results.

Context {InterfaceSetting N : Type} `{!Libusb InterfaceSetting N} `{!GoRuntime}.

(** Run an operation for the [error] it returns. *)
Definition op_error (o : op)
  : M InterfaceSetting N (option (error InterfaceSetting)) :=
  match o with
  | OpDeviceReset d => Device_Reset d
  | OpDeviceActiveConfig d => bind (Device_ActiveConfig d) (fun r => ret (snd r))
  | OpDeviceConfig d cfgNum => bind (Device_Config d cfgNum) (fun r => ret (snd r))
  | OpDeviceClose d => Device_Close d
  | OpDeviceGetStringDescriptor d i =>
      bind (Device_GetStringDescriptor d i) (fun r => ret (snd r))
  | OpDeviceSetAutoDetach d b => Device_SetAutoDetach d b
  | OpConfigClose c => Config_Close c
  | OpConfigControl c rType request val idx data =>
      bind (Config_Control c rType request val idx data) (fun r => ret (snd r))
  | OpConfigInterface c intf alt =>
      bind (Config_Interface c intf alt) (fun r => ret (snd r))
  end.

End Results.

(** The mutexes held after replaying a log from the mutexes [held]. *)
Fixpoint held_after (held : list mutex) (evs : list event) : list mutex :=
  match evs with
  | [] => held
  | Lock m :: rest => held_after (m :: held) rest
  | Unlock m :: rest => held_after (drop_mutex m held) rest
  | Native _ :: rest => held_after held rest
  end.

(** The libusb calls of a log that are made while some mutex is held. *)
Fixpoint calls_while_locked (held : list mutex) (evs : list event) : list call :=
  match evs with
  | [] => []
  | Lock m :: rest => calls_while_locked (m :: held) rest
  | Unlock m :: rest => calls_while_locked (drop_mutex m held) rest
  | Native c :: rest =>
      match held with
      | [] => calls_while_locked held rest
      | _ :: _ => c :: calls_while_locked held rest
      end
  end.

(** ** A scripted libusb layer, for examples

    The native state is the list of outcomes still to come: each call
    that can fail takes the next one ([None] is success, and so is an
    exhausted script). *)
Definition next_outcome (script : list (option (error unit)))
  : option (error unit) * list (option (error unit)) :=
  match script with
  | [] => (None, [])
  | o :: rest => (o, rest)
  end.

Definition ScriptedUsb : Libusb unit (list (option (error unit))) :=
  {| libusb_reset := fun _ => next_outcome;
     libusb_getConfig := fun _ n => ((1, fst (next_outcome n)), snd (next_outcome n));
     libusb_setConfig := fun _ _ => next_outcome;
     libusb_close := fun _ n => n;
     libusb_getStringDesc := fun _ _ n =>
       ((String.EmptyString, fst (next_outcome n)), snd (next_outcome n));
     libusb_setAutoDetach := fun _ _ => next_outcome;
     libusb_control := fun _ _ _ _ _ _ data n =>
       ((len data, fst (next_outcome n)), snd (next_outcome n));
     libusb_claim := fun _ _ => next_outcome;
     libusb_setAlt := fun _ _ _ => next_outcome;
     libusb_release := fun _ _ => next_outcome |}.

(** A libusb layer that keeps the table of claimed interface numbers as
    its state.  [claim] answers busy for a number already in the table and
    enters it otherwise; [setAlt] fails; [release] fails as well and leaves
    the table as it is, as on a device that stopped answering. *)
Definition StuckReleaseUsb : Libusb unit (list Z) :=
  {| libusb_reset := fun _ n => (None, n);
     libusb_getConfig := fun _ n => ((1, None), n);
     libusb_setConfig := fun _ _ n => (None, n);
     libusb_close := fun _ n => n;
     libusb_getStringDesc := fun _ _ n => ((String.EmptyString, None), n);
     libusb_setAutoDetach := fun _ _ n => (None, n);
     libusb_control := fun _ _ _ _ _ _ data n => ((len data, None), n);
     libusb_claim := fun _ intf n =>
       if bool_decide (intf ∈ n) then (Some (NativeError (-6)), n)
       else (None, intf :: n);
     libusb_setAlt := fun _ _ _ n => (Some (NativeError (-5)), n);
     libusb_release := fun _ _ n => (Some (NativeError (-4)), n) |}.

(** A runtime that ranges over a map in the order of its listing. *)
Definition ListingRuntime : GoRuntime :=
  {| range_keys := fun m => (map_to_list m).*1;
     range_keys_perm := fun m => reflexivity _ |}.

(** A device with configurations 1 and 2; configuration 1 has three
    interfaces, the first with two alternate settings. *)
Definition exampleDescriptor : Descriptor unit :=
  mkDescriptor
    [ mkConfigInfo 1 false false 50
        [ mkInterfaceInfo [tt; tt]; mkInterfaceInfo [tt]; mkInterfaceInfo [tt] ];
      mkConfigInfo 2 true false 0 [ mkInterfaceInfo [tt] ] ].

Definition exampleInfo : ConfigInfo unit :=
  mkConfigInfo 1 false false 50
    [ mkInterfaceInfo [tt; tt]; mkInterfaceInfo [tt]; mkInterfaceInfo [tt] ].

(** Device 0 is open on handle 7 with nothing claimed; [script] is the
    native state. *)
Definition openWorld (script : list (option (error unit)))
  : World unit (list (option (error unit))) :=
  mkWorld {[ 0%nat := mkDevice (Some 7%nat) exampleDescriptor None ]} ∅ script [].

(** Device 0 is open with config 0 (configuration 1) claimed;
    [claimed] is the config's interface map. *)
Definition configuredWorld (claimed : gmap Z bool)
    (script : list (option (error unit)))
  : World unit (list (option (error unit))) :=
  mkWorld {[ 0%nat := mkDevice (Some 7%nat) exampleDescriptor (Some 0%nat) ]}
          {[ 0%nat := mkConfig exampleInfo 0 0%nat claimed ]} script [].

(** Device 0 is open with config 0 claimed and no interface claimed, on
    the layer with a claim table; the table is empty. *)
Definition tableWorld : World unit (list Z) :=
  mkWorld {[ 0%nat := mkDevice (Some 7%nat) exampleDescriptor (Some 0%nat) ]}
          {[ 0%nat := mkConfig exampleInfo 0 0%nat ∅ ]} [] [].

(** Device 0 has been closed. *)
Definition closedWorld : World unit (list (option (error unit))) :=
  mkWorld {[ 0%nat := mkDevice None exampleDescriptor None ]} ∅ [] [].

(** * Properties *)

Section Properties.

Context {InterfaceSetting N : Type} `{!Libusb InterfaceSetting N} `{!GoRuntime}.

Local Abbreviation World := (World InterfaceSetting N).
Local Abbreviation Device := (Device InterfaceSetting).
Local Abbreviation Config := (Config InterfaceSetting).

Implicit Types (w : World) (d c : nat) (dev : Device) (cfg : Config).

(** Unfold a method body down to the store and the log. *)
Ltac unfold_method :=
  unfold Device_Reset, Device_ActiveConfig, Device_Config, Device_Close,
    Device_GetStringDescriptor, Device_SetAutoDetach, Config_Close,
    Config_Control, Config_Interface, Config_dev_handle, locked,
    Mutex_Lock, Mutex_Unlock, emit, loadDevice, storeDevice, loadConfig,
    storeConfig, newConfig, native_call, index, bind, ret, logged.

(** ** [Device.Reset] *)

Lemma Device_Reset_run w d dev :
  devices w !! d = Some dev ->
  Device_Reset d w =
    match Device_claimed dev with
    | Some _ =>
        Some (Some (Errorf "can't reset a device with an open configuration" []),
              logged w (native w) [Lock (DeviceMu d); Unlock (DeviceMu d)])
    | None =>
        Some (fst (libusb_reset (Device_handle dev) (native w)),
              logged w (snd (libusb_reset (Device_handle dev) (native w)))
                [Lock (DeviceMu d); Native (CallReset (Device_handle dev));
                 Unlock (DeviceMu d)])
    end.
Proof.
  intros Hd. unfold_method. cbn. rewrite Hd.
  destruct (Device_claimed dev) as [c|]; cbn.
  - by rewrite <- app_assoc.
  - destruct (libusb_reset _ _) as [r n]; cbn.
    by rewrite <- !app_assoc.
Qed.

(** C7. [Device.Reset] on a device with a claimed Config ([claimed != nil])
    returns the busy error and makes no libusb call: the native state is
    untouched and the log gains the lock and unlock of the device mutex
    only.  With nothing claimed it calls [libusb.reset] on the handle,
    under the device mutex, and returns what that call returns. *)
Theorem Device_Reset_spec w d dev :
  devices w !! d = Some dev ->
  (Device_claimed dev <> None ->
     Device_Reset d w =
       Some (Some (Errorf "can't reset a device with an open configuration" []),
             logged w (native w) [Lock (DeviceMu d); Unlock (DeviceMu d)])
     /\ native_calls [Lock (DeviceMu d); Unlock (DeviceMu d)] = [])
  /\ (Device_claimed dev = None ->
        Device_Reset d w =
          Some (fst (libusb_reset (Device_handle dev) (native w)),
                logged w (snd (libusb_reset (Device_handle dev) (native w)))
                  [Lock (DeviceMu d); Native (CallReset (Device_handle dev));
                   Unlock (DeviceMu d)])).
Proof.
  intros Hd. rewrite (Device_Reset_run _ _ _ Hd).
  destruct (Device_claimed dev) as [c|]; split; done.
Qed.

(** ** [Device.ActiveConfig] *)

Lemma Device_ActiveConfig_run w d dev :
  devices w !! d = Some dev ->
  Device_ActiveConfig d w =
    Some (fst (libusb_getConfig (Device_handle dev) (native w)),
          logged w (snd (libusb_getConfig (Device_handle dev) (native w)))
            [Native (CallGetConfig (Device_handle dev))]).
Proof.
  intros Hd. unfold_method. cbn. rewrite Hd.
  by destruct (libusb_getConfig _ _) as [[ret err] n].
Qed.

(** C8. [Device.ActiveConfig] returns the number and the error reported by
    [libusb.getConfig] on the handle.  It changes no field of any Device or
    Config (the stores are those of [w]; only the native state and the log
    advance), and it does not consult [claimed]: on two worlds that agree on
    the handle of [d] and on the native state it returns the same. *)
Theorem Device_ActiveConfig_spec w d dev :
  devices w !! d = Some dev ->
  Device_ActiveConfig d w =
    Some (fst (libusb_getConfig (Device_handle dev) (native w)),
          logged w (snd (libusb_getConfig (Device_handle dev) (native w)))
            [Native (CallGetConfig (Device_handle dev))])
  /\ (forall w2 dev2,
        devices w2 !! d = Some dev2 ->
        Device_handle dev2 = Device_handle dev ->
        native w2 = native w ->
        fst <$> Device_ActiveConfig d w2 = fst <$> Device_ActiveConfig d w).
Proof.
  intros Hd. split; [by apply Device_ActiveConfig_run|].
  intros w2 dev2 Hd2 Hh Hn.
  rewrite (Device_ActiveConfig_run _ _ _ Hd), (Device_ActiveConfig_run _ _ _ Hd2).
  by rewrite Hh, Hn.
Qed.

(** ** [Device.Config] *)

(** The scan fails exactly when no entry carries the number. *)
Lemma scanConfigs_None (cfgNum : Z) (cs : list (ConfigInfo InterfaceSetting)) :
  scanConfigs cfgNum cs = None <->
  forall info, info ∈ cs -> ConfigInfo_Config info <> cfgNum.
Proof.
  induction cs as [|x cs IH]; cbn.
  - split; [|done]. intros _ info Hin. by apply elem_of_nil in Hin.
  - destruct (Z.eqb_spec (ConfigInfo_Config x) cfgNum) as [Heq|Hne].
    + split; [done|]. intros Hall. destruct (Hall x); [left|done].
    + rewrite IH. split.
      * intros Hall info Hin. apply elem_of_cons in Hin as [->|Hin]; auto.
      * intros Hall info Hin. apply Hall. by right.
Qed.

(** The scan returns the first entry that carries the number, wherever it
    stands in the list. *)
Lemma scanConfigs_Some (cfgNum : Z) (cs : list (ConfigInfo InterfaceSetting)) info :
  scanConfigs cfgNum cs = Some info <->
  exists pre post,
    cs = pre ++ info :: post
    /\ ConfigInfo_Config info = cfgNum
    /\ forall x, x ∈ pre -> ConfigInfo_Config x <> cfgNum.
Proof.
  induction cs as [|x cs IH]; cbn.
  - split; [done|]. intros (pre & post & Hcs & _). by destruct pre.
  - destruct (Z.eqb_spec (ConfigInfo_Config x) cfgNum) as [Heq|Hne].
    + split.
      * intros [= ->]. exists [], cs. split_and!; [done|done|].
        intros y Hy. by apply elem_of_nil in Hy.
      * intros (pre & post & Hcs & Hnum & Hpre).
        destruct pre as [|y pre]; cbn in Hcs; simplify_eq; [done|].
        destruct (Hpre y); [left|done].
    + rewrite IH. split.
      * intros (pre & post & -> & Hnum & Hpre).
        exists (x :: pre), post. split_and!; [done|done|].
        intros y Hy. apply elem_of_cons in Hy as [->|Hy]; auto.
      * intros (pre & post & Hcs & Hnum & Hpre).
        destruct pre as [|y pre]; cbn in Hcs; simplify_eq.
        exists pre, post. split_and!; [done|done|].
        intros z Hz. apply Hpre. by right.
Qed.

(** [Device.Config], path by path. *)
Lemma Device_Config_run w d dev (cfgNum : Z) :
  devices w !! d = Some dev ->
  let c := fresh (dom (configs w)) in
  let h := Device_handle dev in
  let r := libusb_setConfig h (uint8 cfgNum) (native w) in
  Device_Config d cfgNum w =
    match scanConfigs cfgNum (Descriptor_Configs (Device_Descriptor dev)) with
    | None =>
        Some ((None,
               Some (Errorf "configuration id %d not found in the descriptor of the device %s"
                            [AConfig c; ADevice d])),
              mkWorld (devices w)
                      (<[c := mkConfig ConfigInfo_zero 0 d ∅]> (configs w))
                      (native w) (trace w))
    | Some info =>
        match fst r with
        | Some e =>
            Some ((None,
                   Some (Errorf "failed to set active config %d for the device %s: %v"
                                [AInt cfgNum; ADevice d; AError e])),
                  mkWorld (devices w)
                          (<[c := mkConfig info 0 d ∅]> (configs w))
                          (snd r)
                          (trace w ++ [Native (CallSetConfig h (uint8 cfgNum))]))
        | None =>
            Some ((Some c, None),
                  mkWorld (<[d := mkDevice h (Device_Descriptor dev) (Some c)]>
                             (devices w))
                          (<[c := mkConfig info 0 d ∅]> (configs w))
                          (snd r)
                          (trace w ++ [Native (CallSetConfig h (uint8 cfgNum));
                                       Lock (DeviceMu d);
                                       Unlock (DeviceMu d)]))
        end
    end.
Proof.
  intros Hd c h r. unfold_method. cbn. rewrite Hd.
  destruct (scanConfigs _ _) as [info|]; cbn; [|done].
  rewrite lookup_insert_eq. cbn.
  fold h c. fold r. destruct r as [[e|] n]; cbn.
  - by rewrite insert_insert_eq.
  - rewrite Hd. cbn. by rewrite insert_insert_eq, <- !app_assoc.
Qed.

(** C4. [Device.Config(cfgNum)] scans the configuration list for the first
    entry whose configuration number is [cfgNum].  With no such entry it
    returns the not-found error; no libusb call is made and no Device
    changes.  With [info] the first such entry, at whatever index, it calls
    [libusb.setConfig] on the handle.  If that call fails, the native error
    is returned (wrapped) and no Device changes, so [claimed] is as before.
    If it succeeds, the new Config (address [c], holding [info], owner [d],
    no interface claimed) is stored in [claimed] under the device mutex,
    whatever [claimed] held before, and [c] is returned.  *)
Theorem Device_Config_spec w d dev (cfgNum : Z) :
  devices w !! d = Some dev ->
  let c := fresh (dom (configs w)) in
  let h := Device_handle dev in
  let cs := Descriptor_Configs (Device_Descriptor dev) in
  let r := libusb_setConfig h (uint8 cfgNum) (native w) in
  ((forall info, info ∈ cs -> ConfigInfo_Config info <> cfgNum) ->
     Device_Config d cfgNum w =
       Some ((None,
              Some (Errorf "configuration id %d not found in the descriptor of the device %s"
                           [AConfig c; ADevice d])),
             mkWorld (devices w)
                     (<[c := mkConfig ConfigInfo_zero 0 d ∅]> (configs w))
                     (native w) (trace w)))
  /\ (forall pre info post,
        cs = pre ++ info :: post ->
        ConfigInfo_Config info = cfgNum ->
        (forall x, x ∈ pre -> ConfigInfo_Config x <> cfgNum) ->
        (forall e, fst r = Some e ->
           Device_Config d cfgNum w =
             Some ((None,
                    Some (Errorf "failed to set active config %d for the device %s: %v"
                                 [AInt cfgNum; ADevice d; AError e])),
                   mkWorld (devices w)
                           (<[c := mkConfig info 0 d ∅]> (configs w))
                           (snd r)
                           (trace w ++ [Native (CallSetConfig h (uint8 cfgNum))])))
        /\ (fst r = None ->
              Device_Config d cfgNum w =
                Some ((Some c, None),
                      mkWorld (<[d := mkDevice h (Device_Descriptor dev) (Some c)]>
                                 (devices w))
                              (<[c := mkConfig info 0 d ∅]> (configs w))
                              (snd r)
                              (trace w ++ [Native (CallSetConfig h (uint8 cfgNum));
                                           Lock (DeviceMu d);
                                           Unlock (DeviceMu d)])))).
Proof.
  intros Hd c h cs r. rewrite (Device_Config_run _ _ _ _ Hd).
  fold c h cs. fold r. split.
  - intros Hnone. apply scanConfigs_None in Hnone. by rewrite Hnone.
  - intros pre info post Hcs Hnum Hpre.
    assert (scanConfigs cfgNum cs = Some info) as ->.
    { apply scanConfigs_Some. by exists pre, post. }
    split; [intros e ->|intros ->]; done.
Qed.

(** ** [Device.Close] *)

(** C3, amended.  On a device whose handle is gone [Device.Close] returns
    the double-close error and changes nothing.  On a device whose handle is
    still open it succeeds if and only if no Config is claimed: with a
    Config claimed it returns the busy error, leaving stores and native
    state alone; with none it calls [libusb.close] on the handle under the
    device mutex and sets the handle to nil, after which a second [Close]
    returns the double-close error. *)
Theorem Device_Close_spec w d dev :
  devices w !! d = Some dev ->
  (forall c, Device_claimed dev = Some c -> is_Some (configs w !! c)) ->
  exists r w',
    Device_Close d w = Some (r, w')
    /\ (Device_handle dev = None ->
          r = Some (Errorf "double close on device %s" [ADevice d]) /\ w' = w)
    /\ (Device_handle dev <> None ->
          (r = None <-> Device_claimed dev = None)
          /\ (forall c cfg,
                Device_claimed dev = Some c -> configs w !! c = Some cfg ->
                r = Some (Errorf "can't release the device %s, it has an open config %s"
                                 [ADevice d;
                                  AInt (ConfigInfo_Config (Config_Info cfg))])
                /\ w' = logged w (native w)
                          [Lock (DeviceMu d); Unlock (DeviceMu d)])
          /\ (Device_claimed dev = None ->
                w' = mkWorld
                       (<[d := mkDevice None (Device_Descriptor dev) None]>
                          (devices w))
                       (configs w)
                       (libusb_close (Device_handle dev) (native w))
                       (trace w ++ [Lock (DeviceMu d);
                                    Native (CallClose (Device_handle dev));
                                    Unlock (DeviceMu d)])
                /\ Device_Close d w' =
                     Some (Some (Errorf "double close on device %s" [ADevice d]),
                           w'))).
Proof.
  intros Hd Hvalid. unfold_method. cbn. rewrite Hd.
  destruct (Device_handle dev) as [h|] eqn:Hh; cbn.
  - rewrite Hd. destruct (Device_claimed dev) as [c|] eqn:Hc; cbn.
    + destruct (Hvalid c eq_refl) as [cfg Hcfg]. rewrite Hcfg. cbn.
      eexists _, _. split; [done|]. split; [done|]. intros _.
      split_and!; [done| |done].
      intros c' cfg' [= <-] Hcfg'. rewrite Hcfg in Hcfg'. simplify_eq.
      split; [done|]. by rewrite <- app_assoc.
    + rewrite Hh. cbn.
      eexists _, _. split; [done|]. split; [done|]. intros _.
      split_and!; [done|done|]. intros _.
      rewrite <- !app_assoc. cbn. split; [done|].
      by rewrite lookup_insert_eq.
  - eexists _, _. by split_and!.
Qed.

(** ** [Config.Close] *)

(** The loop that collects the keys appends them in the order of the range. *)
Lemma foldl_snoc (acc ks : list Z) :
  foldl (fun ifs k => ifs ++ [k]) acc ks = acc ++ ks.
Proof.
  revert acc. induction ks as [|k ks IH]; intros acc; cbn.
  - by rewrite app_nil_r.
  - by rewrite IH, <- app_assoc.
Qed.

Lemma claimedKeys_range (m : gmap Z bool) : claimedKeys m = range_keys m.
Proof. unfold claimedKeys. by rewrite foldl_snoc. Qed.

Lemma claimedKeys_NoDup (m : gmap Z bool) : NoDup (claimedKeys m).
Proof.
  rewrite claimedKeys_range, range_keys_perm. apply NoDup_fst_map_to_list.
Qed.

Lemma claimedKeys_elem_of (m : gmap Z bool) (k : Z) :
  k ∈ claimedKeys m <-> is_Some (m !! k).
Proof.
  rewrite claimedKeys_range, range_keys_perm, list_elem_of_fmap. split.
  - intros ([k' v] & -> & Hin). apply elem_of_map_to_list in Hin. by exists v.
  - intros [v Hv]. exists (k, v). split; [done|]. by apply elem_of_map_to_list.
Qed.

Lemma len_claimed_positive (m : gmap Z bool) :
  (Z.of_nat (size m) >? 0) = false <-> m = ∅.
Proof.
  rewrite <- map_size_empty_iff, Z.gtb_ltb, Z.ltb_ge. lia.
Qed.

(** C1. [Config.Close] returns, and it succeeds if and only if the map of
    claimed interfaces is empty when it is called.  On success the owning
    Device's [claimed] is set to nil, under the config mutex and then the
    device mutex, and nothing else changes.  On failure the busy error
    lists every key of the map, each once, and no field of any Config or
    Device changes: the log alone gains the lock and unlock of the config
    mutex. *)
Theorem Config_Close_spec w c cfg dev :
  configs w !! c = Some cfg ->
  devices w !! Config_dev cfg = Some dev ->
  exists r w',
    Config_Close c w = Some (r, w')
    /\ (r = None <-> Config_claimed cfg = ∅)
    /\ (Config_claimed cfg = ∅ ->
          w' = mkWorld
                 (<[Config_dev cfg :=
                      mkDevice (Device_handle dev) (Device_Descriptor dev) None]>
                    (devices w))
                 (configs w) (native w)
                 (trace w ++ [Lock (ConfigMu c);
                              Lock (DeviceMu (Config_dev cfg));
                              Unlock (DeviceMu (Config_dev cfg));
                              Unlock (ConfigMu c)]))
    /\ (Config_claimed cfg <> ∅ ->
          exists ifs,
            r = Some (Errorf "failed to release %s, interfaces %v are still open"
                             [AConfig c; AInts ifs])
            /\ NoDup ifs
            /\ (forall k, k ∈ ifs <-> is_Some (Config_claimed cfg !! k))
            /\ w' = logged w (native w) [Lock (ConfigMu c); Unlock (ConfigMu c)]).
Proof.
  intros Hc Hd. unfold_method. cbn. rewrite Hc.
  destruct (Z.of_nat (size (Config_claimed cfg)) >? 0) eqn:Hlen; cbn.
  - assert (Config_claimed cfg <> ∅) as Hne.
    { intros Hempty. apply len_claimed_positive in Hempty. congruence. }
    eexists _, _. split; [done|]. split_and!; [done|done|].
    intros _. eexists. split; [done|].
    split; [apply claimedKeys_NoDup|].
    split; [apply claimedKeys_elem_of|].
    by rewrite <- app_assoc.
  - apply len_claimed_positive in Hlen. rewrite Hd. cbn.
    eexists _, _. split; [done|]. split_and!; [done| |done].
    intros _. by rewrite <- !app_assoc.
Qed.

(** ** [Config.Interface] *)

(** The bounds test [i < 0 || i >= len(s)]. *)
Lemma bounds_test_true {A} (s : list A) (i : Z) :
  i < 0 \/ len s <= i -> (i <? 0) || (i >=? len s) = true.
Proof.
  intros Hi. rewrite Z.geb_leb. apply orb_true_iff.
  rewrite Z.ltb_lt, Z.leb_le. lia.
Qed.

Lemma bounds_test_false {A} (s : list A) (i : Z) :
  0 <= i < len s -> (i <? 0) || (i >=? len s) = false.
Proof.
  intros Hi. rewrite Z.geb_leb. apply orb_false_iff.
  rewrite Z.ltb_ge, Z.leb_gt. lia.
Qed.

Lemma lookup_in_bounds {A} (s : list A) (i : Z) (x : A) :
  0 <= i -> s !! Z.to_nat i = Some x -> 0 <= i < len s.
Proof.
  intros Hi Hx. apply lookup_lt_Some in Hx. unfold len. lia.
Qed.

(** Past the two bounds tests: the claim, the alternate setting and, when
    that fails, the release; on full success the bookkeeping. *)
Lemma Config_Interface_in_range w c cfg dev ifInfo setting (intf alt : Z) :
  configs w !! c = Some cfg ->
  devices w !! Config_dev cfg = Some dev ->
  0 <= intf ->
  ConfigInfo_Interfaces (Config_Info cfg) !! Z.to_nat intf = Some ifInfo ->
  0 <= alt ->
  InterfaceInfo_AltSettings ifInfo !! Z.to_nat alt = Some setting ->
  let h := Device_handle dev in
  let claim := libusb_claim h (uint8 intf) (native w) in
  let setAlt := libusb_setAlt h (uint8 intf) (uint8 alt) (snd claim) in
  let release := libusb_release h (uint8 intf) (snd setAlt) in
  Config_Interface c intf alt w =
    match fst claim with
    | Some e =>
        Some ((None,
               Some (Errorf "failed to claim interface %d on %s: %v"
                            [AInt intf; AConfig c; AError e])),
              logged w (snd claim) [Native (CallClaim h (uint8 intf))])
    | None =>
        match fst setAlt with
        | Some e =>
            Some ((None,
                   Some (Errorf "failed to set alternate config %d on interface %d of %s: %v"
                                [AInt alt; AInt intf; AConfig c; AError e])),
                  logged w (snd release)
                    [Native (CallClaim h (uint8 intf));
                     Native (CallSetAlt h (uint8 intf) (uint8 alt));
                     Native (CallRelease h (uint8 intf))])
        | None =>
            Some ((Some (mkInterface setting c), None),
                  mkWorld (devices w)
                          (<[c := mkConfig (Config_Info cfg)
                                           (Config_ControlTimeout cfg)
                                           (Config_dev cfg)
                                           (<[intf := true]> (Config_claimed cfg))]>
                             (configs w))
                          (snd setAlt)
                          (trace w ++ [Native (CallClaim h (uint8 intf));
                                       Native (CallSetAlt h (uint8 intf) (uint8 alt));
                                       Lock (ConfigMu c);
                                       Unlock (ConfigMu c)]))
        end
    end.
Proof.
  intros Hc Hd Hintf HifInfo Halt Hsetting h claim setAlt release.
  pose proof (lookup_in_bounds _ _ _ Hintf HifInfo) as Hi.
  pose proof (lookup_in_bounds _ _ _ Halt Hsetting) as Ha.
  subst release setAlt claim.
  unfold_method. cbn. rewrite Hc.
  rewrite (bounds_test_false _ _ Hi).
  destruct (Z.ltb_spec intf 0) as [?|_]; [lia|].
  rewrite HifInfo. rewrite (bounds_test_false _ _ Ha).
  rewrite Hc; cbn; rewrite Hd; cbn. fold h.
  destruct (libusb_claim h (uint8 intf) (native w)) as [[e1|] n1]; cbn; [done|].
  rewrite Hc; cbn; rewrite Hd; cbn. fold h.
  destruct (libusb_setAlt h (uint8 intf) (uint8 alt) n1) as [[e2|] n2]; cbn.
  - rewrite Hc; cbn; rewrite Hd; cbn. fold h.
    destruct (libusb_release h (uint8 intf) n2) as [rel n3]; cbn.
    by rewrite <- !app_assoc.
  - rewrite Hc. cbn.
    destruct (Z.ltb_spec alt 0) as [?|_]; [lia|].
    rewrite Hsetting. cbn. by rewrite <- !app_assoc.
Qed.

(** C5. [Config.Interface(intf, alt)] with [intf] outside the interface
    table, or with [intf] inside it and [alt] outside the alternate-setting
    table of that interface, returns the out-of-range error and leaves the
    world as it was: no libusb call, no log entry.  The last value passed to
    the message is the number of elements of the table concerned. *)
Theorem Config_Interface_out_of_range w c cfg (intf alt : Z) :
  configs w !! c = Some cfg ->
  let ifs := ConfigInfo_Interfaces (Config_Info cfg) in
  ((intf < 0 \/ len ifs <= intf) ->
     Config_Interface c intf alt w =
       Some ((None,
              Some (Errorf "interface %d not found in %s. Interface number needs to be a 0-based index into the interface table, which has %d elements."
                           [AInt intf; AConfig c; AInt (len ifs)])),
             w))
  /\ (forall ifInfo,
        0 <= intf ->
        ifs !! Z.to_nat intf = Some ifInfo ->
        let alts := InterfaceInfo_AltSettings ifInfo in
        (alt < 0 \/ len alts <= alt) ->
        Config_Interface c intf alt w =
          Some ((None,
                 Some (Errorf "Inteface %d does not have alternate setting %d. Alt setting needs to be a 0-based index into the settings table, which has %d elements."
                              [AInterfaceInfo ifInfo; AInt alt; AInt (len alts)])),
                w)).
Proof.
  intros Hc ifs. split.
  - intros Hout. unfold_method. cbn. rewrite Hc. fold ifs.
    by rewrite (bounds_test_true _ _ Hout).
  - intros ifInfo Hintf HifInfo alts Hout.
    pose proof (lookup_in_bounds _ _ _ Hintf HifInfo) as Hi.
    unfold_method. cbn. rewrite Hc. fold ifs.
    rewrite (bounds_test_false _ _ Hi).
    destruct (Z.ltb_spec intf 0) as [?|_]; [lia|].
    rewrite HifInfo. fold alts.
    by rewrite (bounds_test_true _ _ Hout).
Qed.

(** C2, amended.  With [intf] and [alt] in range, when [libusb.claim]
    succeeds and [libusb.setAlt] then fails, [Config.Interface] calls
    [libusb.release] for the same handle and interface before it returns:
    the log gains the claim, the failed alternate setting and the release,
    in that order.  It returns no Interface, only the error; no Config and
    no Device changes, so [intf] is not added to the claimed map.  The
    native layer is left in the state the release call produced, whatever
    that call answered: the claim is undone there only as far as the
    release itself succeeds. *)
Theorem Config_Interface_rollback w c cfg dev ifInfo (intf alt : Z) e :
  configs w !! c = Some cfg ->
  devices w !! Config_dev cfg = Some dev ->
  0 <= intf ->
  ConfigInfo_Interfaces (Config_Info cfg) !! Z.to_nat intf = Some ifInfo ->
  0 <= alt < len (InterfaceInfo_AltSettings ifInfo) ->
  let h := Device_handle dev in
  let claim := libusb_claim h (uint8 intf) (native w) in
  let setAlt := libusb_setAlt h (uint8 intf) (uint8 alt) (snd claim) in
  let release := libusb_release h (uint8 intf) (snd setAlt) in
  fst claim = None ->
  fst setAlt = Some e ->
  exists w',
    Config_Interface c intf alt w =
      Some ((None,
             Some (Errorf "failed to set alternate config %d on interface %d of %s: %v"
                          [AInt alt; AInt intf; AConfig c; AError e])),
            w')
    /\ trace w' = trace w ++ [Native (CallClaim h (uint8 intf));
                              Native (CallSetAlt h (uint8 intf) (uint8 alt));
                              Native (CallRelease h (uint8 intf))]
    /\ native w' = snd release
    /\ configs w' = configs w
    /\ devices w' = devices w.
Proof.
  intros Hc Hd Hintf HifInfo Halt h claim setAlt release Hclaim HsetAlt.
  destruct (lookup_lt_is_Some_2 (InterfaceInfo_AltSettings ifInfo) (Z.to_nat alt))
    as [setting Hsetting]; [unfold len in Halt; lia|].
  rewrite (Config_Interface_in_range _ _ _ _ _ _ _ _
             Hc Hd Hintf HifInfo (proj1 Halt) Hsetting).
  fold h. fold claim. rewrite Hclaim. fold setAlt. rewrite HsetAlt.
  eexists. by split_and!.
Qed.

(** C9. In the rollback path the outcome of [libusb.release] is dropped.
    Take two runs on the same store in which the claim succeeds and
    [libusb.setAlt] fails with [e]; in the first the release then fails
    with [e_rel], in the second it succeeds.  Both return the same thing:
    the error that wraps [e], the error of [setAlt], and nothing else. *)
Theorem Config_Interface_release_error_dropped
    w w2 c cfg dev ifInfo (intf alt : Z) e e_rel :
  configs w !! c = Some cfg ->
  devices w !! Config_dev cfg = Some dev ->
  configs w2 = configs w ->
  devices w2 = devices w ->
  0 <= intf ->
  ConfigInfo_Interfaces (Config_Info cfg) !! Z.to_nat intf = Some ifInfo ->
  0 <= alt < len (InterfaceInfo_AltSettings ifInfo) ->
  let h := Device_handle dev in
  let claim n := libusb_claim h (uint8 intf) n in
  let setAlt n := libusb_setAlt h (uint8 intf) (uint8 alt) (snd (claim n)) in
  let release n := libusb_release h (uint8 intf) (snd (setAlt n)) in
  fst (claim (native w)) = None ->
  fst (setAlt (native w)) = Some e ->
  fst (release (native w)) = Some e_rel ->
  fst (claim (native w2)) = None ->
  fst (setAlt (native w2)) = Some e ->
  fst (release (native w2)) = None ->
  fst <$> Config_Interface c intf alt w =
    Some (None,
          Some (Errorf "failed to set alternate config %d on interface %d of %s: %v"
                       [AInt alt; AInt intf; AConfig c; AError e]))
  /\ fst <$> Config_Interface c intf alt w2 = fst <$> Config_Interface c intf alt w.
Proof.
  intros Hc Hd Hc2 Hd2 Hintf HifInfo Halt h claim setAlt release
    Hclaim HsetAlt _ Hclaim2 HsetAlt2 _.
  destruct (lookup_lt_is_Some_2 (InterfaceInfo_AltSettings ifInfo) (Z.to_nat alt))
    as [setting Hsetting]; [unfold len in Halt; lia|].
  rewrite <- Hc2 in Hc. rewrite <- Hd2 in Hd.
  rewrite (Config_Interface_in_range _ _ _ _ _ _ _ _
             Hc Hd Hintf HifInfo (proj1 Halt) Hsetting).
  rewrite Hc2 in Hc. rewrite Hd2 in Hd.
  rewrite (Config_Interface_in_range _ _ _ _ _ _ _ _
             Hc Hd Hintf HifInfo (proj1 Halt) Hsetting).
  fold h. fold (claim (native w)) (claim (native w2)).
  rewrite Hclaim, Hclaim2.
  fold (setAlt (native w)) (setAlt (native w2)).
  by rewrite HsetAlt, HsetAlt2.
Qed.

(** ** After [Device.Close] *)

Lemma native_calls_app (evs1 evs2 : list event) :
  native_calls (evs1 ++ evs2) = native_calls evs1 ++ native_calls evs2.
Proof.
  induction evs1 as [|[call|m|m] evs1 IH]; cbn; by rewrite ?IH.
Qed.

(** A successful [Device.Close] leaves the device with a nil handle and
    nothing claimed, and the Configs as they were. *)
Lemma Device_Close_success w d dev w' :
  devices w !! d = Some dev ->
  Device_Close d w = Some (None, w') ->
  devices w' !! d = Some (mkDevice None (Device_Descriptor dev) None)
  /\ configs w' = configs w.
Proof.
  intros Hd. unfold_method. cbn. rewrite Hd.
  destruct (Device_handle dev) as [h|] eqn:Hh; cbn; [|done].
  rewrite Hd. destruct (Device_claimed dev) as [c|] eqn:Hc; cbn.
  - by destruct (configs w !! c).
  - intros [= <-]. cbn. by rewrite lookup_insert_eq.
Qed.

Lemma Device_GetStringDescriptor_run w d dev (descIndex : Z) :
  devices w !! d = Some dev ->
  let r := libusb_getStringDesc (Device_handle dev) descIndex (native w) in
  Device_GetStringDescriptor d descIndex w =
    Some (fst r,
          logged w (snd r) [Native (CallGetStringDesc (Device_handle dev) descIndex)]).
Proof.
  intros Hd r. unfold_method. cbn. rewrite Hd. fold r. by destruct r.
Qed.

Lemma Device_SetAutoDetach_run w d dev (autodetach : bool) :
  devices w !! d = Some dev ->
  let v := if autodetach then 1 else 0 in
  let r := libusb_setAutoDetach (Device_handle dev) v (native w) in
  Device_SetAutoDetach d autodetach w =
    Some (fst r, logged w (snd r) [Native (CallSetAutoDetach (Device_handle dev) v)]).
Proof.
  intros Hd v r. unfold_method. cbn. rewrite Hd. fold v. fold r. by destruct r.
Qed.

Lemma Config_Control_run w c cfg dev (rType request val idx : Z) (data : list Z) :
  configs w !! c = Some cfg ->
  devices w !! Config_dev cfg = Some dev ->
  let h := Device_handle dev in
  let t := Config_ControlTimeout cfg in
  let r := libusb_control h t rType request val idx data (native w) in
  Config_Control c rType request val idx data w =
    Some (fst r,
          logged w (snd r) [Native (CallControl h t rType request val idx data)]).
Proof.
  intros Hc Hd h t r. unfold_method. cbn.
  rewrite Hc; cbn; rewrite Hd; cbn; rewrite Hc; cbn.
  fold h t. fold r. by destruct r.
Qed.

(** C10. After a successful [Device.Close] on [d], in the world [w'] it
    leaves: [GetStringDescriptor], [SetAutoDetach], [Reset] and
    [ActiveConfig] on [d], [Config] on [d] with the number of one of its
    configurations, and [Control] on any Config whose device is [d], each
    call libusb with the nil handle and return what libusb returns; none of
    them tests the handle.  ([Config] with a number the descriptor lacks
    returns not-found as on an open device.)  [Close] alone tests it: it
    returns the double-close error without calling libusb. *)
Theorem closed_handle_reaches_libusb w d dev w' :
  devices w !! d = Some dev ->
  Device_Close d w = Some (None, w') ->
  (forall descIndex,
     let r := libusb_getStringDesc None descIndex (native w') in
     Device_GetStringDescriptor d descIndex w' =
       Some (fst r, logged w' (snd r) [Native (CallGetStringDesc None descIndex)]))
  /\ (forall autodetach : bool,
        let v := if autodetach then 1 else 0 in
        let r := libusb_setAutoDetach None v (native w') in
        Device_SetAutoDetach d autodetach w' =
          Some (fst r, logged w' (snd r) [Native (CallSetAutoDetach None v)]))
  /\ (let r := libusb_reset None (native w') in
      Device_Reset d w' =
        Some (fst r,
              logged w' (snd r)
                [Lock (DeviceMu d); Native (CallReset None); Unlock (DeviceMu d)]))
  /\ (let r := libusb_getConfig None (native w') in
      Device_ActiveConfig d w' =
        Some (fst r, logged w' (snd r) [Native (CallGetConfig None)]))
  /\ (forall cfgNum info,
        info ∈ Descriptor_Configs (Device_Descriptor dev) ->
        ConfigInfo_Config info = cfgNum ->
        exists r w'',
          Device_Config d cfgNum w' = Some (r, w'')
          /\ native_calls (trace w'') =
               native_calls (trace w') ++ [CallSetConfig None (uint8 cfgNum)]
          /\ native w'' = snd (libusb_setConfig None (uint8 cfgNum) (native w')))
  /\ (forall cfgNum,
        (forall info, info ∈ Descriptor_Configs (Device_Descriptor dev) ->
                      ConfigInfo_Config info <> cfgNum) ->
        fst <$> Device_Config d cfgNum w' =
          Some (None,
                Some (Errorf "configuration id %d not found in the descriptor of the device %s"
                             [AConfig (fresh (dom (configs w'))); ADevice d])))
  /\ (forall c cfg rType request val idx data,
        configs w' !! c = Some cfg ->
        Config_dev cfg = d ->
        let t := Config_ControlTimeout cfg in
        let r := libusb_control None t rType request val idx data (native w') in
        Config_Control c rType request val idx data w' =
          Some (fst r,
                logged w' (snd r)
                  [Native (CallControl None t rType request val idx data)]))
  /\ Device_Close d w' =
       Some (Some (Errorf "double close on device %s" [ADevice d]), w').
Proof.
  intros Hd Hclose.
  destruct (Device_Close_success _ _ _ _ Hd Hclose) as [Hd' Hcfgs].
  split_and!.
  - intros descIndex. by rewrite (Device_GetStringDescriptor_run _ _ _ _ Hd').
  - intros autodetach. by rewrite (Device_SetAutoDetach_run _ _ _ _ Hd').
  - by rewrite (Device_Reset_run _ _ _ Hd').
  - by rewrite (Device_ActiveConfig_run _ _ _ Hd').
  - intros cfgNum info Hin Hnum.
    rewrite (Device_Config_run _ _ _ _ Hd'). cbn.
    destruct (scanConfigs cfgNum _) as [info'|] eqn:Hscan.
    + destruct (fst (libusb_setConfig None (uint8 cfgNum) (native w'))).
      * eexists _, _. split; [done|]. cbn. by rewrite native_calls_app.
      * eexists _, _. split; [done|]. cbn. by rewrite native_calls_app.
    + by destruct (proj1 (scanConfigs_None _ _) Hscan info Hin).
  - intros cfgNum Hnone. apply scanConfigs_None in Hnone.
    rewrite (Device_Config_run _ _ _ _ Hd'). cbn. by rewrite Hnone.
  - intros c cfg rType request val idx data Hc Hdev.
    rewrite <- Hdev in Hd'.
    by rewrite (Config_Control_run _ _ _ _ _ _ _ _ _ Hc Hd').
  - unfold_method. cbn. by rewrite Hd'.
Qed.

(** ** Lock order *)

(** Split a completed run on every test the method body makes. *)
Ltac case_run H :=
  repeat (cbn in H; rewrite ?lookup_insert_eq in H;
          match type of H with
          | context [match ?x with _ => _ end] =>
              lazymatch x with
              | context [match _ with _ => _ end] => fail
              | _ => destruct x eqn:?
              end
          end);
  cbn in H; simplify_eq.



(** ** Pointer validity is an invariant *)

Ltac lookup_cases :=
  repeat match goal with
         | H : <[_ := _]> _ !! _ = Some _ |- _ =>
             apply lookup_insert_Some in H as [[? ?]|[? ?]]; simplify_eq
         | |- is_Some (<[?i := _]> _ !! ?j) =>
             destruct (decide (i = j)) as [->|?];
             [rewrite lookup_insert_eq; eauto|rewrite lookup_insert_ne by done]
         end.

(** Operations keep every pointer of the store inside the store, so the
    store lookups that the theorems above assume hold for every Device and
    Config of a world reached by running operations from a valid one. *)
Lemma run_op_pointers_valid (o : op) w w' :
  pointers_valid w -> run_op o w = Some w' -> pointers_valid w'.
Proof.
  intros [Hdev Hcfg] Hrun.
  destruct o; cbn in Hrun; revert Hrun; unfold_method; intros Hrun.
  all: case_run Hrun.
  all: split; cbn; [intros d' dev' c' Hd' Hc'|intros c' cfg' Hc'].
  all: lookup_cases; cbn in *; simplify_eq; eauto.
Qed.

(** X17. Pointer validity is kept by every sequence of operations: in the
    world they leave, the [claimed] of every Device is nil or a Config of
    the store, and the [dev] of every Config is a Device of the store. *)
Lemma run_ops_pointers_valid (os : list op) w w' :
  pointers_valid w -> run_ops os w = Some w' -> pointers_valid w'.
Proof.
  revert w. induction os as [|o os IH]; intros w Hvalid; cbn.
  - by intros [= <-].
  - destruct (run_op o w) as [w1|] eqn:Hrun; [|done].
    apply IH. by eapply run_op_pointers_valid.
Qed.

(** * Further properties of the two files *)

(** ** [Config.Interface]: the remaining paths *)

(** X1. With [intf] and [alt] in range and both [libusb.claim] and
    [libusb.setAlt] succeeding, [Config.Interface] returns an Interface that
    carries the alternate setting at index [alt] and points back to [c].
    The claimed map of [c] then maps [intf] to true and is otherwise as
    before; the other fields of [c], every other Config and every Device are
    unchanged; libusb saw the claim and the alternate setting, and no
    release. *)
Theorem Config_Interface_success w c cfg dev ifInfo setting (intf alt : Z) :
  configs w !! c = Some cfg ->
  devices w !! Config_dev cfg = Some dev ->
  0 <= intf ->
  ConfigInfo_Interfaces (Config_Info cfg) !! Z.to_nat intf = Some ifInfo ->
  0 <= alt ->
  InterfaceInfo_AltSettings ifInfo !! Z.to_nat alt = Some setting ->
  let h := Device_handle dev in
  let claim := libusb_claim h (uint8 intf) (native w) in
  let setAlt := libusb_setAlt h (uint8 intf) (uint8 alt) (snd claim) in
  fst claim = None ->
  fst setAlt = None ->
  exists w' cfg',
    Config_Interface c intf alt w = Some ((Some (mkInterface setting c), None), w')
    /\ devices w' = devices w
    /\ configs w' !! c = Some cfg'
    /\ Config_claimed cfg' !! intf = Some true
    /\ (forall k, k <> intf -> Config_claimed cfg' !! k = Config_claimed cfg !! k)
    /\ Config_Info cfg' = Config_Info cfg
    /\ Config_ControlTimeout cfg' = Config_ControlTimeout cfg
    /\ Config_dev cfg' = Config_dev cfg
    /\ (forall c', c' <> c -> configs w' !! c' = configs w !! c')
    /\ native_calls (trace w') =
         native_calls (trace w)
         ++ [CallClaim h (uint8 intf); CallSetAlt h (uint8 intf) (uint8 alt)].
Proof.
  intros Hc Hd Hintf HifInfo Halt Hsetting h claim setAlt Hclaim HsetAlt.
  rewrite (Config_Interface_in_range _ _ _ _ _ _ _ _
             Hc Hd Hintf HifInfo Halt Hsetting).
  fold h. fold claim. rewrite Hclaim. fold setAlt. rewrite HsetAlt.
  eexists _, (mkConfig (Config_Info cfg) (Config_ControlTimeout cfg)
                       (Config_dev cfg) (<[intf := true]> (Config_claimed cfg))).
  split; [done|]. cbn.
  split_and!; try done.
  - by rewrite lookup_insert_eq.
  - by rewrite lookup_insert_eq.
  - intros k Hk. by rewrite lookup_insert_ne.
  - intros c' Hc'. by rewrite lookup_insert_ne.
  - by rewrite native_calls_app.
Qed.

(** X3. With [intf] and [alt] in range, when [libusb.claim] fails with [e]
    nothing else is asked of libusb: no alternate setting, no release.  The
    error returned wraps [e], no Interface is returned and no Config or
    Device changes. *)
Theorem Config_Interface_claim_fails w c cfg dev ifInfo (intf alt : Z) e :
  configs w !! c = Some cfg ->
  devices w !! Config_dev cfg = Some dev ->
  0 <= intf ->
  ConfigInfo_Interfaces (Config_Info cfg) !! Z.to_nat intf = Some ifInfo ->
  0 <= alt < len (InterfaceInfo_AltSettings ifInfo) ->
  let h := Device_handle dev in
  let claim := libusb_claim h (uint8 intf) (native w) in
  fst claim = Some e ->
  Config_Interface c intf alt w =
    Some ((None,
           Some (Errorf "failed to claim interface %d on %s: %v"
                        [AInt intf; AConfig c; AError e])),
          logged w (snd claim) [Native (CallClaim h (uint8 intf))]).
Proof.
  intros Hc Hd Hintf HifInfo Halt h claim Hclaim.
  destruct (lookup_lt_is_Some_2 (InterfaceInfo_AltSettings ifInfo) (Z.to_nat alt))
    as [setting Hsetting]; [unfold len in Halt; lia|].
  rewrite (Config_Interface_in_range _ _ _ _ _ _ _ _
             Hc Hd Hintf HifInfo (proj1 Halt) Hsetting).
  fold h. fold claim. by rewrite Hclaim.
Qed.

(** X4. Claiming again an interface number that the map already holds as
    true is not refused here, and when libusb lets it through the
    bookkeeping is exactly as before: no Config and no Device changes. *)
Theorem Config_Interface_reclaim w c cfg dev ifInfo setting (intf alt : Z) :
  configs w !! c = Some cfg ->
  devices w !! Config_dev cfg = Some dev ->
  0 <= intf ->
  ConfigInfo_Interfaces (Config_Info cfg) !! Z.to_nat intf = Some ifInfo ->
  0 <= alt ->
  InterfaceInfo_AltSettings ifInfo !! Z.to_nat alt = Some setting ->
  Config_claimed cfg !! intf = Some true ->
  let h := Device_handle dev in
  let claim := libusb_claim h (uint8 intf) (native w) in
  let setAlt := libusb_setAlt h (uint8 intf) (uint8 alt) (snd claim) in
  fst claim = None ->
  fst setAlt = None ->
  exists w',
    Config_Interface c intf alt w = Some ((Some (mkInterface setting c), None), w')
    /\ configs w' = configs w
    /\ devices w' = devices w.
Proof.
  intros Hc Hd Hintf HifInfo Halt Hsetting Hheld h claim setAlt Hclaim HsetAlt.
  rewrite (Config_Interface_in_range _ _ _ _ _ _ _ _
             Hc Hd Hintf HifInfo Halt Hsetting).
  fold h. fold claim. rewrite Hclaim. fold setAlt. rewrite HsetAlt.
  eexists. split; [done|]. cbn. split; [|done].
  rewrite (insert_id (Config_claimed cfg)) by done.
  apply insert_id. by destruct cfg.
Qed.

(** ** [Config.Close] after a claim *)

(** [Config.Close], path by path. *)
Lemma Config_Close_run w c cfg dev :
  configs w !! c = Some cfg ->
  devices w !! Config_dev cfg = Some dev ->
  Config_Close c w =
    if Z.of_nat (size (Config_claimed cfg)) >? 0 then
      Some (Some (Errorf "failed to release %s, interfaces %v are still open"
                         [AConfig c; AInts (claimedKeys (Config_claimed cfg))]),
            logged w (native w) [Lock (ConfigMu c); Unlock (ConfigMu c)])
    else
      Some (None,
            mkWorld
              (<[Config_dev cfg :=
                   mkDevice (Device_handle dev) (Device_Descriptor dev) None]>
                 (devices w))
              (configs w) (native w)
              (trace w ++ [Lock (ConfigMu c);
                           Lock (DeviceMu (Config_dev cfg));
                           Unlock (DeviceMu (Config_dev cfg));
                           Unlock (ConfigMu c)])).
Proof.
  intros Hc Hd. unfold_method. cbn. rewrite Hc.
  destruct (Z.of_nat (size (Config_claimed cfg)) >? 0); cbn.
  - by rewrite <- app_assoc.
  - rewrite Hd. cbn. by rewrite <- !app_assoc.
Qed.

(** X2. Once [Config.Interface] has succeeded for [intf], [Config.Close]
    on the same Config is refused: it returns the busy error, the list in
    that error contains [intf], and the Devices are as they were before the
    claim, so the device keeps whatever it had claimed. *)
Theorem Config_Close_after_Interface w c cfg dev ifInfo setting (intf alt : Z) :
  configs w !! c = Some cfg ->
  devices w !! Config_dev cfg = Some dev ->
  0 <= intf ->
  ConfigInfo_Interfaces (Config_Info cfg) !! Z.to_nat intf = Some ifInfo ->
  0 <= alt ->
  InterfaceInfo_AltSettings ifInfo !! Z.to_nat alt = Some setting ->
  let h := Device_handle dev in
  let claim := libusb_claim h (uint8 intf) (native w) in
  let setAlt := libusb_setAlt h (uint8 intf) (uint8 alt) (snd claim) in
  fst claim = None ->
  fst setAlt = None ->
  exists w1 ifs w2,
    Config_Interface c intf alt w = Some ((Some (mkInterface setting c), None), w1)
    /\ Config_Close c w1 =
         Some (Some (Errorf "failed to release %s, interfaces %v are still open"
                            [AConfig c; AInts ifs]),
               w2)
    /\ intf ∈ ifs
    /\ devices w2 = devices w
    /\ configs w2 = configs w1.
Proof.
  intros Hc Hd Hintf HifInfo Halt Hsetting h claim setAlt Hclaim HsetAlt.
  rewrite (Config_Interface_in_range _ _ _ _ _ _ _ _
             Hc Hd Hintf HifInfo Halt Hsetting).
  fold h. fold claim. rewrite Hclaim. fold setAlt. rewrite HsetAlt.
  set (cfg1 := mkConfig (Config_Info cfg) (Config_ControlTimeout cfg)
                        (Config_dev cfg) (<[intf := true]> (Config_claimed cfg))).
  eexists _, _, _. split; [done|].
  rewrite (Config_Close_run _ c cfg1 dev);
    [|cbn; by rewrite lookup_insert_eq|done].
  destruct (Z.of_nat (size (Config_claimed cfg1)) >? 0) eqn:Hlen.
  - split; [done|]. split; [|done].
    apply claimedKeys_elem_of. cbn. by rewrite lookup_insert_eq.
  - apply len_claimed_positive in Hlen. cbn in Hlen.
    by apply insert_non_empty in Hlen.
Qed.

(** ** [Device.Config] followed by other operations *)

(** [Device.Close], path by path. *)
Lemma Device_Close_run w d dev :
  devices w !! d = Some dev ->
  Device_Close d w =
    match Device_handle dev with
    | None => Some (Some (Errorf "double close on device %s" [ADevice d]), w)
    | Some _ =>
        match Device_claimed dev with
        | Some c =>
            match configs w !! c with
            | Some cfg =>
                Some (Some (Errorf "can't release the device %s, it has an open config %s"
                                   [ADevice d;
                                    AInt (ConfigInfo_Config (Config_Info cfg))]),
                      logged w (native w) [Lock (DeviceMu d); Unlock (DeviceMu d)])
            | None => None
            end
        | None =>
            Some (None,
                  mkWorld
                    (<[d := mkDevice None (Device_Descriptor dev) None]> (devices w))
                    (configs w)
                    (libusb_close (Device_handle dev) (native w))
                    (trace w ++ [Lock (DeviceMu d);
                                 Native (CallClose (Device_handle dev));
                                 Unlock (DeviceMu d)]))
        end
    end.
Proof.
  intros Hd. unfold_method. cbn. rewrite Hd.
  destruct (Device_handle dev) as [h|] eqn:Hh; cbn; [|done].
  rewrite Hd. destruct (Device_claimed dev) as [c|] eqn:Hc; cbn.
  - destruct (configs w !! c); cbn; [|done]. by rewrite <- app_assoc.
  - rewrite Hh. cbn. by rewrite <- !app_assoc.
Qed.

(** The address of a new Config is not in use. *)
Lemma fresh_config_unused w : configs w !! fresh (dom (configs w)) = None.
Proof. apply not_elem_of_dom, is_fresh. Qed.

(** A successful [Device.Config], with what it leaves behind. *)
Lemma Device_Config_succeeds w d dev (cfgNum : Z) info :
  devices w !! d = Some dev ->
  info ∈ Descriptor_Configs (Device_Descriptor dev) ->
  ConfigInfo_Config info = cfgNum ->
  fst (libusb_setConfig (Device_handle dev) (uint8 cfgNum) (native w)) = None ->
  let c := fresh (dom (configs w)) in
  exists info' w1,
    Device_Config d cfgNum w = Some ((Some c, None), w1)
    /\ ConfigInfo_Config info' = cfgNum
    /\ info' ∈ Descriptor_Configs (Device_Descriptor dev)
    /\ devices w1 =
         <[d := mkDevice (Device_handle dev) (Device_Descriptor dev) (Some c)]>
           (devices w)
    /\ configs w1 = <[c := mkConfig info' 0 d ∅]> (configs w)
    /\ native_calls (trace w1) =
         native_calls (trace w) ++ [CallSetConfig (Device_handle dev) (uint8 cfgNum)].
Proof.
  intros Hd Hin Hnum Hok c.
  rewrite (Device_Config_run _ _ _ _ Hd). fold c.
  destruct (scanConfigs cfgNum _) as [info'|] eqn:Hscan.
  - rewrite Hok. apply scanConfigs_Some in Hscan as (pre & post & Hcs & Hnum' & _).
    exists info'. eexists. split; [done|]. cbn. split_and!; try done.
    + rewrite Hcs. apply elem_of_app. right. by left.
    + by rewrite native_calls_app.
  - by destruct (proj1 (scanConfigs_None _ _) Hscan info Hin).
Qed.

(** X5. Round trip.  When [Device.Config(cfgNum)] succeeds it returns a
    Config at an address not used before, whose configuration number is
    [cfgNum], whose device is [d] and which holds no interface.
    [Config.Close] on that Config then succeeds at once and leaves [d] with
    nothing claimed; if [d] had nothing claimed to begin with, every Device
    is back as it was before the two calls. *)
Theorem Device_Config_then_Config_Close w d dev (cfgNum : Z) info :
  devices w !! d = Some dev ->
  info ∈ Descriptor_Configs (Device_Descriptor dev) ->
  ConfigInfo_Config info = cfgNum ->
  fst (libusb_setConfig (Device_handle dev) (uint8 cfgNum) (native w)) = None ->
  exists c cfg1 w1 w2,
    Device_Config d cfgNum w = Some ((Some c, None), w1)
    /\ configs w !! c = None
    /\ configs w1 !! c = Some cfg1
    /\ ConfigInfo_Config (Config_Info cfg1) = cfgNum
    /\ Config_dev cfg1 = d
    /\ Config_claimed cfg1 = ∅
    /\ Config_Close c w1 = Some (None, w2)
    /\ devices w2 !! d =
         Some (mkDevice (Device_handle dev) (Device_Descriptor dev) None)
    /\ (Device_claimed dev = None -> devices w2 = devices w).
Proof.
  intros Hd Hin Hnum Hok.
  destruct (Device_Config_succeeds _ _ _ _ _ Hd Hin Hnum Hok)
    as (info' & w1 & Hrun & Hnum' & _ & Hdevs & Hcfgs & _).
  set (c := fresh (dom (configs w))) in *.
  set (dev1 := mkDevice (Device_handle dev) (Device_Descriptor dev) (Some c)) in *.
  exists c, (mkConfig info' 0 d ∅), w1.
  exists (mkWorld
            (<[d := mkDevice (Device_handle dev) (Device_Descriptor dev) None]>
               (devices w1))
            (configs w1) (native w1)
            (trace w1 ++ [Lock (ConfigMu c); Lock (DeviceMu d);
                          Unlock (DeviceMu d); Unlock (ConfigMu c)])).
  split; [done|]. split; [apply fresh_config_unused|].
  split; [by rewrite Hcfgs, lookup_insert_eq|].
  split_and!; try done.
  - rewrite (Config_Close_run w1 c (mkConfig info' 0 d ∅) dev1);
      [|by rewrite Hcfgs, lookup_insert_eq|by rewrite Hdevs, lookup_insert_eq].
    cbn [Config_claimed Config_dev]. rewrite map_size_empty. cbn. reflexivity.
  - cbn. by rewrite lookup_insert_eq.
  - intros Hfree. cbn. rewrite Hdevs, insert_insert_eq.
    apply insert_id. rewrite Hd. f_equal. destruct dev; cbn in *. by subst.
Qed.

(** X6. While the Config returned by a successful [Device.Config(cfgNum)]
    is open, an open device can be neither closed nor reset: [Device.Close]
    returns the busy error, which carries [cfgNum], and [Device.Reset]
    returns its busy error; neither calls libusb, neither changes a Device
    or a Config. *)
Theorem Device_busy_after_Config w d dev (cfgNum : Z) info :
  devices w !! d = Some dev ->
  Device_handle dev <> None ->
  info ∈ Descriptor_Configs (Device_Descriptor dev) ->
  ConfigInfo_Config info = cfgNum ->
  fst (libusb_setConfig (Device_handle dev) (uint8 cfgNum) (native w)) = None ->
  exists c w1,
    Device_Config d cfgNum w = Some ((Some c, None), w1)
    /\ Device_Close d w1 =
         Some (Some (Errorf "can't release the device %s, it has an open config %s"
                            [ADevice d; AInt cfgNum]),
               logged w1 (native w1) [Lock (DeviceMu d); Unlock (DeviceMu d)])
    /\ Device_Reset d w1 =
         Some (Some (Errorf "can't reset a device with an open configuration" []),
               logged w1 (native w1) [Lock (DeviceMu d); Unlock (DeviceMu d)]).
Proof.
  intros Hd Hopen Hin Hnum Hok.
  destruct (Device_Config_succeeds _ _ _ _ _ Hd Hin Hnum Hok)
    as (info' & w1 & Hrun & Hnum' & _ & Hdevs & Hcfgs & _).
  set (c := fresh (dom (configs w))) in *.
  set (dev1 := mkDevice (Device_handle dev) (Device_Descriptor dev) (Some c)) in *.
  assert (devices w1 !! d = Some dev1) as Hd1 by (by rewrite Hdevs, lookup_insert_eq).
  exists c, w1. split; [done|]. split.
  - rewrite (Device_Close_run _ _ _ Hd1). cbn.
    destruct (Device_handle dev); [|done].
    by rewrite Hcfgs, lookup_insert_eq, <- Hnum'.
  - by rewrite (Device_Reset_run _ _ _ Hd1).
Qed.

(** X7. [Config.Close] clears the device's [claimed] without comparing it
    with the Config being closed.  So when the device records [c2] and
    another Config [c1] of the same device, holding no interface, is
    closed, the device is left with nothing claimed; [c2] itself is
    untouched, and [Device.Close] on the open device then succeeds. *)
Theorem Config_Close_of_other_Config w d dev c1 cfg1 c2 cfg2 :
  devices w !! d = Some dev ->
  Device_handle dev <> None ->
  Device_claimed dev = Some c2 ->
  configs w !! c2 = Some cfg2 ->
  c1 <> c2 ->
  configs w !! c1 = Some cfg1 ->
  Config_dev cfg1 = d ->
  Config_claimed cfg1 = ∅ ->
  exists w1 w2,
    Config_Close c1 w = Some (None, w1)
    /\ devices w1 !! d =
         Some (mkDevice (Device_handle dev) (Device_Descriptor dev) None)
    /\ configs w1 !! c2 = Some cfg2
    /\ Device_Close d w1 = Some (None, w2)
    /\ native_calls (trace w2) =
         native_calls (trace w) ++ [CallClose (Device_handle dev)].
Proof.
  intros Hd Hopen Hclaimed Hc2 Hne Hc1 Hdev Hempty. subst d.
  destruct (Device_handle dev) as [h|] eqn:Hh; [|done].
  rewrite (Config_Close_run _ _ _ _ Hc1 Hd), Hempty, map_size_empty, Hh. cbn.
  eexists _, _. split; [done|]. cbn.
  split; [by rewrite lookup_insert_eq|]. split; [done|].
  set (dev1 := mkDevice (Some h) (Device_Descriptor dev) None).
  rewrite (Device_Close_run _ (Config_dev cfg1) dev1);
    [|cbn; by rewrite lookup_insert_eq].
  subst dev1. cbn.
  split; [reflexivity|]. cbn.
  rewrite !native_calls_app. cbn. by rewrite app_nil_r.
Qed.

(** ** What the methods return, and what failures leave behind *)

(** X8. [Device.Config] returns a Config or an error, never both and never
    neither. *)
Theorem Device_Config_value_xor_error w d (cfgNum : Z) r e w' :
  Device_Config d cfgNum w = Some ((r, e), w') ->
  (is_Some r <-> e = None).
Proof.
  unfold_method. intros Hrun. case_run Hrun; split; try done.
  all: by intros [? ?].
Qed.

(** X9. [Config.Interface] returns an Interface or an error, never both
    and never neither. *)
Theorem Config_Interface_value_xor_error w c (intf alt : Z) r e w' :
  Config_Interface c intf alt w = Some ((r, e), w') ->
  (is_Some r <-> e = None).
Proof.
  unfold_method. intros Hrun. case_run Hrun; split; try done.
  all: by intros [? ?].
Qed.

(** X10. An operation of Device or Config that returns an error has
    changed no Device and no Config that was in the store. *)
Theorem failure_leaves_stores (o : op) w e w' :
  op_error o w = Some (Some e, w') ->
  devices w' = devices w
  /\ (forall c cfg, configs w !! c = Some cfg -> configs w' !! c = Some cfg).
Proof.
  intros Hrun.
  destruct o; cbn in Hrun; revert Hrun; unfold_method; intros Hrun.
  all: case_run Hrun; cbn; split; try done.
  all: intros c' cfg' Hc'; rewrite ?lookup_insert_ne; try done.
  all: intros <-; by rewrite fresh_config_unused in Hc'.
Qed.

(** ** What no operation ever does *)

Lemma run_op_device_frame (o : op) w w' d dev :
  run_op o w = Some w' ->
  devices w !! d = Some dev ->
  exists dev',
    devices w' !! d = Some dev'
    /\ Device_Descriptor dev' = Device_Descriptor dev
    /\ (Device_handle dev' = Device_handle dev
        \/ (Device_handle dev' = None /\ o = OpDeviceClose d)).
Proof.
  intros Hrun Hd.
  destruct o; cbn in Hrun; revert Hrun; unfold_method; intros Hrun.
  all: case_run Hrun; cbn.
  all: try (eexists; split; [done|]; split; [done|]; by left).
  all: match goal with
       | |- context [<[?i := _]> _ !! ?j] =>
           destruct (decide (i = j)) as [Heq|?];
           [rewrite Heq in *; rewrite lookup_insert_eq
           |rewrite lookup_insert_ne by done]
       end.
  all: simplify_eq; cbn.
  all: eexists; split; [done|]; split; [done|]; (by left) || (by right).
Qed.

Lemma run_op_devices_dom (o : op) w w' d :
  run_op o w = Some w' -> devices w !! d = None -> devices w' !! d = None.
Proof.
  intros Hrun Hd.
  destruct o; cbn in Hrun; revert Hrun; unfold_method; intros Hrun.
  all: case_run Hrun; cbn; try done.
  all: rewrite lookup_insert_ne; [done|]; intros <-; congruence.
Qed.

(** X11. Through any sequence of operations of Device and Config, no
    device enters or leaves the store and no descriptor changes.  A handle
    is either what it was or nil, and it is nil only if it was nil already
    or [Device.Close] on that device is among the operations: nothing
    reopens a closed device, nothing else closes one. *)
Theorem devices_frame (os : list op) w w' :
  run_ops os w = Some w' ->
  (forall d, devices w !! d = None -> devices w' !! d = None)
  /\ (forall d dev,
        devices w !! d = Some dev ->
        exists dev',
          devices w' !! d = Some dev'
          /\ Device_Descriptor dev' = Device_Descriptor dev
          /\ (Device_handle dev' = Device_handle dev
              \/ (Device_handle dev' = None /\ OpDeviceClose d ∈ os))).
Proof.
  revert w. induction os as [|o os IH]; intros w; cbn.
  - intros [= <-]. split; [done|]. intros d dev Hd. eauto.
  - destruct (run_op o w) as [w1|] eqn:Hrun; [|done]. intros Hrest.
    destruct (IH _ Hrest) as [IHnone IHsome]. split.
    + intros d Hd. apply IHnone. by eapply run_op_devices_dom.
    + intros d dev Hd.
      destruct (run_op_device_frame _ _ _ _ _ Hrun Hd) as (dev1 & Hd1 & Hdesc1 & Hh1).
      destruct (IHsome _ _ Hd1) as (dev' & Hd' & Hdesc' & Hh').
      exists dev'. split; [done|]. split; [congruence|].
      destruct Hh' as [Hsame|[Hnil Hin]].
      * destruct Hh1 as [Hsame1|[Hnil1 ->]].
        -- left. congruence.
        -- right. split; [congruence|]. by left.
      * right. split; [done|]. by right.
Qed.

Lemma run_op_config_frame (o : op) w w' c cfg :
  run_op o w = Some w' ->
  configs w !! c = Some cfg ->
  exists cfg',
    configs w' !! c = Some cfg'
    /\ Config_Info cfg' = Config_Info cfg
    /\ Config_ControlTimeout cfg' = Config_ControlTimeout cfg
    /\ Config_dev cfg' = Config_dev cfg
    /\ (forall k, is_Some (Config_claimed cfg !! k) ->
                  is_Some (Config_claimed cfg' !! k)).
Proof.
  intros Hrun Hc.
  destruct o; cbn in Hrun; revert Hrun; unfold_method; intros Hrun.
  all: case_run Hrun; cbn.
  all: try (eexists; split_and!; done).
  all: repeat match goal with
         | |- context [<[?i := _]> _ !! ?j] =>
             destruct (decide (i = j)) as [Heq|?];
             [rewrite Heq in *; rewrite lookup_insert_eq
             |rewrite lookup_insert_ne by done]
         end.
  all: simplify_eq; cbn.
  all: try (by rewrite fresh_config_unused in Hc).
  all: try (eexists; split_and!; done).
  eexists. split_and!; try done.
  intros k Hk. cbn.
  destruct (decide (intf = k)) as [->|?];
    [rewrite lookup_insert_eq|rewrite lookup_insert_ne by done]; eauto.
Qed.

(** X12. Through any sequence of operations of Device and Config, a Config
    of the store stays in the store with its Info, its control timeout and
    its device unchanged, and every interface number its claimed map held
    is still there: no method of the two files removes a claim. *)
Theorem configs_frame (os : list op) w w' c cfg :
  run_ops os w = Some w' ->
  configs w !! c = Some cfg ->
  exists cfg',
    configs w' !! c = Some cfg'
    /\ Config_Info cfg' = Config_Info cfg
    /\ Config_ControlTimeout cfg' = Config_ControlTimeout cfg
    /\ Config_dev cfg' = Config_dev cfg
    /\ (forall k, is_Some (Config_claimed cfg !! k) ->
                  is_Some (Config_claimed cfg' !! k)).
Proof.
  revert w cfg. induction os as [|o os IH]; intros w cfg; cbn.
  - intros [= <-] Hc. exists cfg. by split_and!.
  - destruct (run_op o w) as [w1|] eqn:Hrun; [|done]. intros Hrest Hc.
    destruct (run_op_config_frame _ _ _ _ _ Hrun Hc)
      as (cfg1 & Hc1 & Hinfo1 & Ht1 & Hdev1 & Hkeys1).
    destruct (IH _ _ Hrest Hc1) as (cfg' & Hc' & Hinfo' & Ht' & Hdev' & Hkeys').
    exists cfg'. split_and!; try congruence. auto.
Qed.

(** The libusb calls an operation adds to the log. *)
Ltac added_calls :=
  cbn; rewrite <- ?app_assoc; cbn;
  eexists; split; [try reflexivity; by rewrite app_nil_r|]; cbn.

Lemma run_op_close_calls (o : op) w w' :
  run_op o w = Some w' ->
  exists evs,
    trace w' = trace w ++ evs
    /\ forall h, CallClose h ∈ native_calls evs ->
                 h <> None /\ exists d, o = OpDeviceClose d.
Proof.
  intros Hrun.
  destruct o; cbn in Hrun; revert Hrun; unfold_method; intros Hrun.
  all: case_run Hrun; added_calls.
  all: intros h Hin.
  all: repeat (apply elem_of_cons in Hin as [Hin|Hin]; [simplify_eq|]).
  all: try (by apply elem_of_nil in Hin).
  split; [congruence|eauto].
Qed.

(** X13. Through any sequence of operations of Device and Config,
    [libusb.close] is never handed a nil handle, and it is called by
    [Device.Close] only: a call of it in the log means [Device.Close] is
    among the operations. *)
Theorem close_calls (os : list op) w w' :
  run_ops os w = Some w' ->
  exists evs,
    trace w' = trace w ++ evs
    /\ forall h, CallClose h ∈ native_calls evs ->
                 h <> None /\ exists d, OpDeviceClose d ∈ os.
Proof.
  revert w. induction os as [|o os IH]; intros w; cbn.
  - intros [= <-]. exists []. split; [by rewrite app_nil_r|].
    intros h Hin. by apply elem_of_nil in Hin.
  - destruct (run_op o w) as [w1|] eqn:Hrun; [|done]. intros Hrest.
    destruct (run_op_close_calls _ _ _ Hrun) as (evs1 & Ht1 & Hclose1).
    destruct (IH _ Hrest) as (evs2 & Ht2 & Hclose2).
    exists (evs1 ++ evs2). split; [by rewrite Ht2, Ht1, app_assoc|].
    intros h Hin. rewrite native_calls_app in Hin.
    apply elem_of_app in Hin as [Hin|Hin].
    + destruct (Hclose1 h Hin) as [Hh [d ->]]. split; [done|].
      exists d. by left.
    + destruct (Hclose2 h Hin) as [Hh [d Hd]]. split; [done|].
      exists d. by right.
Qed.

(** X14. An operation that runs to completion has unlocked every mutex it
    locked.  The only libusb calls made while a mutex is held are the
    [libusb.reset] of [Device.Reset] and the [libusb.close] of
    [Device.Close], under the device mutex; every other call into libusb is
    made with no mutex held. *)
Theorem mutexes_released (o : op) w w' :
  run_op o w = Some w' ->
  exists evs,
    trace w' = trace w ++ evs
    /\ held_after [] evs = []
    /\ (calls_while_locked [] evs = []
        \/ (exists d h, o = OpDeviceReset d
                        /\ calls_while_locked [] evs = [CallReset h])
        \/ (exists d h, o = OpDeviceClose d
                        /\ calls_while_locked [] evs = [CallClose h])).
Proof.
  intros Hrun.
  destruct o; cbn in Hrun; revert Hrun; unfold_method; intros Hrun.
  all: case_run Hrun; added_calls.
  all: repeat (rewrite decide_True by done; cbn).
  all: split; [done|].
  all: first [by left | by (right; left; eauto) | by (right; right; eauto)].
Qed.

(** ** Rendering *)

(** Reading back the decimal that [%d] prints gives the number. *)
Lemma fmt_d_read (n : Z) :
  option_map Z.of_int (NilZero.int_of_string (fmt_d n)) = Some n.
Proof.
  unfold fmt_d. rewrite NilZero.isi.
  - cbn. by rewrite DecimalZ.of_to.
  - destruct n; cbn; [done| |done].
    intros [= Hnil]. by apply DecimalPos.Unsigned.to_uint_nonnil in Hnil.
  - destruct n; cbn; [done|done|].
    intros [= Hnil]. by apply DecimalPos.Unsigned.to_uint_nonnil in Hnil.
Qed.

Lemma fmt_d_inj (n m : Z) : fmt_d n = fmt_d m -> n = m.
Proof.
  intros Heq. pose proof (fmt_d_read n) as Hn.
  rewrite Heq, fmt_d_read in Hn. congruence.
Qed.

Lemma append_inv_head (s a b : string) :
  String.append s a = String.append s b -> a = b.
Proof. induction s as [|ch s IH]; cbn; [done|]. intros [= Heq]. auto. Qed.

Lemma ConfigInfo_String_inj (a b : ConfigInfo InterfaceSetting) :
  ConfigInfo_String a = ConfigInfo_String b ->
  ConfigInfo_Config a = ConfigInfo_Config b.
Proof. unfold ConfigInfo_String. intros Heq. by apply append_inv_head, fmt_d_inj in Heq. Qed.

(** X15. [ConfigInfo.String] is the text config= followed by the
    configuration number in signed decimal: reading the decimal back gives
    the number, so two ConfigInfo values render alike exactly when they
    carry the same configuration number, whatever their other fields. *)
Theorem ConfigInfo_String_number (a b : ConfigInfo InterfaceSetting) :
  (exists digits,
     ConfigInfo_String a = String.append "config=" digits
     /\ option_map Z.of_int (NilZero.int_of_string digits)
        = Some (ConfigInfo_Config a))
  /\ (ConfigInfo_String a = ConfigInfo_String b
      <-> ConfigInfo_Config a = ConfigInfo_Config b).
Proof.
  split.
  - exists (fmt_d (ConfigInfo_Config a)). split; [done|apply fmt_d_read].
  - split; [apply ConfigInfo_String_inj|].
    unfold ConfigInfo_String. by intros ->.
Qed.

(** X16. [Config.String] reads the Config and its Device and changes
    nothing.  Two Configs of the same device render alike exactly when
    they carry the same configuration number. *)
Theorem Config_String_same_device
    (Device_String : Device -> string) w c1 cfg1 c2 cfg2 dev :
  configs w !! c1 = Some cfg1 ->
  configs w !! c2 = Some cfg2 ->
  Config_dev cfg2 = Config_dev cfg1 ->
  devices w !! Config_dev cfg1 = Some dev ->
  exists s1 s2,
    Config_String Device_String c1 w = Some (s1, w)
    /\ Config_String Device_String c2 w = Some (s2, w)
    /\ (s1 = s2 <->
        ConfigInfo_Config (Config_Info cfg1) = ConfigInfo_Config (Config_Info cfg2)).
Proof.
  intros Hc1 Hc2 Hsame Hd.
  unfold Config_String. unfold_method. cbn.
  rewrite Hc1, Hc2. cbn. rewrite Hsame, Hd. cbn.
  eexists _, _. split; [done|]. split; [done|]. split.
  - intros Heq. do 2 apply append_inv_head in Heq.
    by apply ConfigInfo_String_inj.
  - intros Heq. unfold ConfigInfo_String. by rewrite Heq.
Qed.

End Properties.

(** * Examples on the scripted layer *)

#[local] Existing Instance ScriptedUsb.
#[local] Existing Instance ListingRuntime.

(** The worlds of the examples are valid. *)
Lemma configuredWorld_pointers_valid claimed script :
  pointers_valid (configuredWorld claimed script).
Proof.
  split; cbn.
  - intros d dev c Hd Hc. apply lookup_singleton_Some in Hd as [<- <-].
    cbn in Hc. simplify_eq. by rewrite lookup_singleton_eq.
  - intros c cfg Hc. apply lookup_singleton_Some in Hc as [<- <-].
    cbn. by rewrite lookup_singleton_eq.
Qed.

(** [Config.Close] holds the config mutex and the device mutex together. *)
Example Config_Close_holds_both :
  (trace <$> run_op (OpConfigClose 0) (configuredWorld ∅ [])) =
    Some [Lock (ConfigMu 0); Lock (DeviceMu 0);
          Unlock (DeviceMu 0); Unlock (ConfigMu 0)]
  /\ holds_both [] [Lock (ConfigMu 0); Lock (DeviceMu 0);
                    Unlock (DeviceMu 0); Unlock (ConfigMu 0)] = true.
Proof. split; reflexivity. Qed.

(** Interface 0 is claimed: closing the config is refused. *)
Lemma Config_Close_spec_witness :
  let cfg := mkConfig exampleInfo 0 0%nat {[ 0 := true ]} in
  let w := configuredWorld {[ 0 := true ]} [] in
  configs w !! 0%nat = Some cfg
  /\ exists r w',
       Config_Close 0 w = Some (r, w')
       /\ (r = None <-> Config_claimed cfg = ∅)
       /\ (Config_claimed cfg <> ∅ -> devices w' = devices w /\ configs w' = configs w).
Proof.
  intros cfg w. split; [reflexivity|].
  destruct (Config_Close_spec w 0%nat cfg
              (mkDevice (Some 7%nat) exampleDescriptor (Some 0%nat)))
    as (r & w' & Hrun & Hiff & _ & Hbusy); [reflexivity|reflexivity|].
  exists r, w'. split_and!; [done|done|].
  intros Hne. destruct (Hbusy Hne) as (ifs & _ & _ & _ & ->). done.
Defined.

(** The claim succeeds, the alternate setting fails: the release follows. *)
Lemma Config_Interface_rollback_witness :
  let w := configuredWorld ∅ [None; Some (NativeError (-5))] in
  exists w',
    Config_Interface 0 0 1 w =
      Some ((None,
             Some (Errorf "failed to set alternate config %d on interface %d of %s: %v"
                          [AInt 1; AInt 0; AConfig 0%nat;
                           AError (NativeError (-5))])),
            w')
    /\ trace w' = [Native (CallClaim (Some 7%nat) 0);
                   Native (CallSetAlt (Some 7%nat) 0 1);
                   Native (CallRelease (Some 7%nat) 0)]
    /\ configs w' = configs w.
Proof.
  intros w.
  destruct (Config_Interface_rollback w 0%nat
              (mkConfig exampleInfo 0 0%nat ∅)
              (mkDevice (Some 7%nat) exampleDescriptor (Some 0%nat))
              (mkInterfaceInfo [tt; tt]) 0 1 (NativeError (-5)))
    as (w' & Hrun & Htrace & _ & Hcfgs & _);
    [reflexivity|reflexivity|lia|reflexivity|unfold len; cbn; lia|reflexivity|reflexivity|].
  exists w'. split_and!; done.
Defined.

(** The release fails like the alternate setting did.  [Config.Interface]
    reports the failure of [setAlt] and records nothing, yet interface 0 is
    still in the native claim table, and the next [Config.Interface] on it
    is answered busy: the claim is left half-established. *)
Lemma Config_Interface_rollback_counterexample :
  exists w',
    @Config_Interface unit (list Z) StuckReleaseUsb 0 0 1 tableWorld =
      Some ((None,
             Some (Errorf "failed to set alternate config %d on interface %d of %s: %v"
                          [AInt 1; AInt 0; AConfig 0%nat;
                           AError (NativeError (-5))])),
            w')
    /\ native_calls (trace w') =
         [CallClaim (Some 7%nat) 0; CallSetAlt (Some 7%nat) 0 1;
          CallRelease (Some 7%nat) 0]
    /\ native w' = [0]
    /\ configs w' !! 0%nat = Some (mkConfig exampleInfo 0 0%nat ∅)
    /\ fst <$> @Config_Interface unit (list Z) StuckReleaseUsb 0 0 1 w' =
         Some (None,
               Some (Errorf "failed to claim interface %d on %s: %v"
                            [AInt 0; AConfig 0%nat; AError (NativeError (-6))])).
Proof.
  exists (mkWorld (devices tableWorld) (configs tableWorld) [0]
            [Native (CallClaim (Some 7%nat) 0);
             Native (CallSetAlt (Some 7%nat) 0 1);
             Native (CallRelease (Some 7%nat) 0)]).
  split_and!; vm_compute; reflexivity.
Qed.

(** A closed device with no Config claimed: [Close] does not succeed. *)
Lemma Device_Close_closed_counterexample :
  let dev := mkDevice None exampleDescriptor None in
  devices closedWorld !! 0%nat = Some dev
  /\ ~ ((exists w', Device_Close 0 closedWorld = Some (None, w'))
        <-> Device_claimed dev = None).
Proof.
  intros dev. split; [reflexivity|].
  intros [_ Hsucceeds]. destruct (Hsucceeds eq_refl) as [w' Hrun].
  vm_compute in Hrun. discriminate.
Qed.

Lemma Device_Close_spec_witness :
  let dev := mkDevice (Some 7%nat) exampleDescriptor None in
  let w := openWorld [] in
  devices w !! 0%nat = Some dev
  /\ exists r w',
       Device_Close 0 w = Some (r, w')
       /\ (r = None <-> Device_claimed dev = None)
       /\ Device_Close 0 w' =
            Some (Some (Errorf "double close on device %s" [ADevice 0%nat]), w').
Proof.
  intros dev w. split; [reflexivity|].
  destruct (Device_Close_spec w 0%nat dev)
    as (r & w' & Hrun & _ & Hopen); [reflexivity|discriminate|].
  destruct Hopen as (Hiff & _ & Hfree); [discriminate|].
  destruct (Hfree eq_refl) as [_ Hagain].
  exists r, w'. split_and!; done.
Defined.

(** Configuration 2 is the second entry of the list. *)
Lemma Device_Config_spec_witness :
  let dev := mkDevice (Some 7%nat) exampleDescriptor None in
  let w := openWorld [] in
  devices w !! 0%nat = Some dev
  /\ (fst <$> Device_Config 0 2 w) = Some (Some 0%nat, None)
  /\ (fst <$> Device_Config 0 3 w) =
       Some (None,
             Some (Errorf "configuration id %d not found in the descriptor of the device %s"
                          [AConfig 0%nat; ADevice 0%nat])).
Proof.
  intros dev w. split; [reflexivity|].
  destruct (Device_Config_spec w 0%nat dev 2) as [_ Hfound]; [reflexivity|].
  destruct (Device_Config_spec w 0%nat dev 3) as [Hmissing _]; [reflexivity|].
  split.
  - destruct (Hfound [mkConfigInfo 1 false false 50
                        [mkInterfaceInfo [tt; tt]; mkInterfaceInfo [tt];
                         mkInterfaceInfo [tt]]]
                     (mkConfigInfo 2 true false 0 [mkInterfaceInfo [tt]]) [])
      as [_ ->]; [reflexivity|reflexivity| |reflexivity|reflexivity].
    intros x Hx. apply list_elem_of_singleton in Hx as ->. cbn. lia.
  - rewrite Hmissing; [reflexivity|].
    intros info Hin. cbn in Hin.
    apply elem_of_cons in Hin as [->|Hin]; [cbn; lia|].
    apply list_elem_of_singleton in Hin as ->. cbn. lia.
Defined.

(** [Interface(5, 0)] on a configuration with three interfaces. *)
Lemma Config_Interface_out_of_range_witness :
  let w := configuredWorld ∅ [] in
  Config_Interface 0 5 0 w =
    Some ((None,
           Some (Errorf "interface %d not found in %s. Interface number needs to be a 0-based index into the interface table, which has %d elements."
                        [AInt 5; AConfig 0%nat; AInt 3])),
          w)
  /\ Config_Interface 0 1 1 w =
       Some ((None,
              Some (Errorf "Inteface %d does not have alternate setting %d. Alt setting needs to be a 0-based index into the settings table, which has %d elements."
                           [AInterfaceInfo (mkInterfaceInfo [tt]); AInt 1; AInt 1])),
             w).
Proof.
  intros w.
  destruct (Config_Interface_out_of_range w 0%nat
              (mkConfig exampleInfo 0 0%nat ∅) 5 0) as [Hintf _]; [reflexivity|].
  destruct (Config_Interface_out_of_range w 0%nat
              (mkConfig exampleInfo 0 0%nat ∅) 1 1) as [_ Halt]; [reflexivity|].
  split.
  - apply Hintf. unfold len. cbn. lia.
  - apply (Halt (mkInterfaceInfo [tt])); [lia|reflexivity|unfold len; cbn; lia].
Defined.


(** A device with an open configuration is not reset. *)
Lemma Device_Reset_spec_witness :
  let w := configuredWorld ∅ [] in
  Device_Reset 0 w =
    Some (Some (Errorf "can't reset a device with an open configuration" []),
          logged w (native w) [Lock (DeviceMu 0); Unlock (DeviceMu 0)])
  /\ Device_Reset 0 (openWorld [Some (NativeError (-4))]) =
       Some (Some (NativeError (-4)),
             logged (openWorld []) []
               [Lock (DeviceMu 0); Native (CallReset (Some 7%nat));
                Unlock (DeviceMu 0)]).
Proof.
  intros w.
  destruct (Device_Reset_spec w 0%nat
              (mkDevice (Some 7%nat) exampleDescriptor (Some 0%nat)))
    as [Hbusy _]; [reflexivity|].
  destruct (Device_Reset_spec (openWorld [Some (NativeError (-4))]) 0%nat
              (mkDevice (Some 7%nat) exampleDescriptor None))
    as [_ Hfree]; [reflexivity|].
  split.
  - apply Hbusy. discriminate.
  - apply Hfree. reflexivity.
Defined.

(** The active configuration is asked of libusb, claimed or not. *)
Lemma Device_ActiveConfig_spec_witness :
  fst <$> Device_ActiveConfig 0 (openWorld []) = Some (1, None)
  /\ fst <$> Device_ActiveConfig 0 (configuredWorld ∅ []) =
       fst <$> Device_ActiveConfig 0 (openWorld []).
Proof.
  destruct (Device_ActiveConfig_spec (openWorld []) 0%nat
              (mkDevice (Some 7%nat) exampleDescriptor None))
    as [Hrun Hsame]; [reflexivity|].
  split.
  - by rewrite Hrun.
  - apply (Hsame (configuredWorld ∅ [])
                 (mkDevice (Some 7%nat) exampleDescriptor (Some 0%nat)));
      reflexivity.
Defined.

(** The release fails in the first script and succeeds in the second:
    the caller is told the same. *)
Lemma Config_Interface_release_error_dropped_witness :
  let w := configuredWorld ∅ [None; Some (NativeError (-5)); Some (NativeError (-4))] in
  let w2 := configuredWorld ∅ [None; Some (NativeError (-5)); None] in
  fst <$> Config_Interface 0 0 1 w =
    Some (None,
          Some (Errorf "failed to set alternate config %d on interface %d of %s: %v"
                       [AInt 1; AInt 0; AConfig 0%nat; AError (NativeError (-5))]))
  /\ fst <$> Config_Interface 0 0 1 w2 = fst <$> Config_Interface 0 0 1 w.
Proof.
  intros w w2.
  apply (Config_Interface_release_error_dropped w w2 0%nat
           (mkConfig exampleInfo 0 0%nat ∅)
           (mkDevice (Some 7%nat) exampleDescriptor (Some 0%nat))
           (mkInterfaceInfo [tt; tt]) 0 1 (NativeError (-5)) (NativeError (-4)));
    try reflexivity; unfold len; cbn; lia.
Defined.

(** Device 0 is closed, then used. *)
Lemma closed_handle_reaches_libusb_witness :
  let w := openWorld [] in
  let w' := mkWorld {[ 0%nat := mkDevice None exampleDescriptor None ]} ∅ []
                    [Lock (DeviceMu 0); Native (CallClose (Some 7%nat));
                     Unlock (DeviceMu 0)] in
  Device_Close 0 w = Some (None, w')
  /\ (fun r => native_calls (trace (snd r))) <$> Device_Reset 0 w' =
       Some [CallClose (Some 7%nat); CallReset None]
  /\ Device_Close 0 w' =
       Some (Some (Errorf "double close on device %s" [ADevice 0%nat]), w').
Proof.
  intros w w'. split; [reflexivity|].
  destruct (closed_handle_reaches_libusb w 0%nat
              (mkDevice (Some 7%nat) exampleDescriptor None) w')
    as (_ & _ & Hreset & _ & _ & _ & _ & Hclose); [reflexivity|reflexivity|].
  split; [|done]. by rewrite Hreset.
Defined.

(** Interface 0 is claimed at alternate setting 0, then the config is
    closed: the busy error names interface 0. *)
Example claim_then_close_is_busy :
  match Config_Interface 0 0 0 (configuredWorld ∅ []) with
  | Some ((Some _, None), w1) => fst <$> Config_Close 0 w1
  | _ => None
  end =
    Some (Some (Errorf "failed to release %s, interfaces %v are still open"
                       [AConfig 0%nat; AInts [0]])).
Proof. vm_compute. reflexivity. Qed.

(** * Examples for the further properties *)

Lemma Config_Interface_success_witness :
  let w := configuredWorld ∅ [] in
  exists w' cfg',
    Config_Interface 0 0 1 w = Some ((Some (mkInterface tt 0%nat), None), w')
    /\ configs w' !! 0%nat = Some cfg'
    /\ Config_claimed cfg' !! 0 = Some true.
Proof.
  intros w.
  destruct (Config_Interface_success w 0%nat
              (mkConfig exampleInfo 0 0%nat ∅)
              (mkDevice (Some 7%nat) exampleDescriptor (Some 0%nat))
              (mkInterfaceInfo [tt; tt]) tt 0 1)
    as (w' & cfg' & Hrun & _ & Hc & Hclaimed & _);
    [reflexivity|reflexivity|lia|reflexivity|lia|reflexivity
    |reflexivity|reflexivity|].
  exists w', cfg'. by split_and!.
Defined.

Lemma Config_Close_after_Interface_witness :
  let w := configuredWorld ∅ [] in
  exists w1 ifs w2,
    Config_Interface 0 0 1 w = Some ((Some (mkInterface tt 0%nat), None), w1)
    /\ Config_Close 0 w1 =
         Some (Some (Errorf "failed to release %s, interfaces %v are still open"
                            [AConfig 0%nat; AInts ifs]),
               w2)
    /\ 0 ∈ ifs.
Proof.
  intros w.
  destruct (Config_Close_after_Interface w 0%nat
              (mkConfig exampleInfo 0 0%nat ∅)
              (mkDevice (Some 7%nat) exampleDescriptor (Some 0%nat))
              (mkInterfaceInfo [tt; tt]) tt 0 1)
    as (w1 & ifs & w2 & Hrun & Hclose & Hin & _);
    [reflexivity|reflexivity|lia|reflexivity|lia|reflexivity
    |reflexivity|reflexivity|].
  exists w1, ifs, w2. by split_and!.
Defined.

Lemma Config_Interface_claim_fails_witness :
  let w := configuredWorld ∅ [Some (NativeError (-6))] in
  Config_Interface 0 0 1 w =
    Some ((None,
           Some (Errorf "failed to claim interface %d on %s: %v"
                        [AInt 0; AConfig 0%nat; AError (NativeError (-6))])),
          logged w [] [Native (CallClaim (Some 7%nat) 0)]).
Proof.
  intros w.
  rewrite (Config_Interface_claim_fails w 0%nat
             (mkConfig exampleInfo 0 0%nat ∅)
             (mkDevice (Some 7%nat) exampleDescriptor (Some 0%nat))
             (mkInterfaceInfo [tt; tt]) 0 1 (NativeError (-6)));
    try reflexivity; unfold len; cbn; lia.
Defined.

Lemma Config_Interface_reclaim_witness :
  let w := configuredWorld {[ 0 := true ]} [] in
  exists w',
    Config_Interface 0 0 1 w = Some ((Some (mkInterface tt 0%nat), None), w')
    /\ configs w' = configs w
    /\ devices w' = devices w.
Proof.
  intros w.
  apply (Config_Interface_reclaim w 0%nat
           (mkConfig exampleInfo 0 0%nat {[ 0 := true ]})
           (mkDevice (Some 7%nat) exampleDescriptor (Some 0%nat))
           (mkInterfaceInfo [tt; tt]) tt 0 1);
    try reflexivity; lia.
Defined.

Lemma Device_Config_then_Config_Close_witness :
  let w := openWorld [] in
  exists c cfg1 w1 w2,
    Device_Config 0 2 w = Some ((Some c, None), w1)
    /\ configs w1 !! c = Some cfg1
    /\ ConfigInfo_Config (Config_Info cfg1) = 2
    /\ Config_Close c w1 = Some (None, w2)
    /\ devices w2 = devices w.
Proof.
  intros w.
  destruct (Device_Config_then_Config_Close w 0%nat
              (mkDevice (Some 7%nat) exampleDescriptor None) 2
              (mkConfigInfo 2 true false 0 [mkInterfaceInfo [tt]]))
    as (c & cfg1 & w1 & w2 & Hrun & _ & Hc & Hnum & _ & _ & Hclose & _ & Hback);
    [reflexivity| |reflexivity|reflexivity|].
  { right. left. }
  exists c, cfg1, w1, w2. split_and!; try done. by apply Hback.
Defined.

Lemma Device_busy_after_Config_witness :
  let w := openWorld [] in
  exists c w1,
    Device_Config 0 2 w = Some ((Some c, None), w1)
    /\ fst <$> Device_Close 0 w1 =
         Some (Some (Errorf "can't release the device %s, it has an open config %s"
                            [ADevice 0%nat; AInt 2]))
    /\ fst <$> Device_Reset 0 w1 =
         Some (Some (Errorf "can't reset a device with an open configuration" [])).
Proof.
  intros w.
  destruct (Device_busy_after_Config w 0%nat
              (mkDevice (Some 7%nat) exampleDescriptor None) 2
              (mkConfigInfo 2 true false 0 [mkInterfaceInfo [tt]]))
    as (c & w1 & Hrun & Hclose & Hreset);
    [reflexivity|discriminate| |reflexivity|reflexivity|].
  { right. left. }
  exists c, w1. split; [done|]. by rewrite Hclose, Hreset.
Defined.

(** [Device.Config(1)] then [Device.Config(2)] leave two Configs, the
    second one recorded; closing the first un-claims the device. *)
Lemma Config_Close_of_other_Config_witness :
  let cfg1 := mkConfig exampleInfo 0 0%nat ∅ in
  let cfg2 := mkConfig (mkConfigInfo 2 true false 0 [mkInterfaceInfo [tt]])
                       0 0%nat ∅ in
  let dev := mkDevice (Some 7%nat) exampleDescriptor (Some 1%nat) in
  let w := mkWorld {[ 0%nat := dev ]} {[ 0%nat := cfg1; 1%nat := cfg2 ]} []
                   [Native (CallSetConfig (Some 7%nat) 1);
                    Lock (DeviceMu 0); Unlock (DeviceMu 0);
                    Native (CallSetConfig (Some 7%nat) 2);
                    Lock (DeviceMu 0); Unlock (DeviceMu 0)] in
  run_ops [OpDeviceConfig 0 1; OpDeviceConfig 0 2] (openWorld []) = Some w
  /\ exists w1 w2,
       Config_Close 0 w = Some (None, w1)
       /\ configs w1 !! 1%nat = Some cfg2
       /\ Device_Close 0 w1 = Some (None, w2).
Proof.
  intros cfg1 cfg2 dev w. split; [vm_compute; reflexivity|].
  destruct (Config_Close_of_other_Config w 0%nat dev 0%nat cfg1 1%nat cfg2)
    as (w1 & w2 & Hclose & _ & Hc2 & Hdev & _);
    [reflexivity|discriminate|reflexivity|reflexivity|lia
    |reflexivity|reflexivity|reflexivity|].
  exists w1, w2. by split_and!.
Defined.

Lemma Device_Config_value_xor_error_witness :
  exists r e w',
    Device_Config 0 3 (openWorld []) = Some ((r, e), w')
    /\ (is_Some r <-> e = None).
Proof.
  destruct (Device_Config 0 3 (openWorld [])) as [[[r e] w']|] eqn:Hrun;
    [|vm_compute in Hrun; discriminate].
  exists r, e, w'. split; [done|].
  apply (Device_Config_value_xor_error (openWorld []) 0%nat 3 r e w' Hrun).
Defined.

Lemma Config_Interface_value_xor_error_witness :
  exists r e w',
    Config_Interface 0 0 0 (configuredWorld ∅ []) = Some ((r, e), w')
    /\ (is_Some r <-> e = None).
Proof.
  destruct (Config_Interface 0 0 0 (configuredWorld ∅ [])) as [[[r e] w']|] eqn:Hrun;
    [|vm_compute in Hrun; discriminate].
  exists r, e, w'. split; [done|].
  apply (Config_Interface_value_xor_error (configuredWorld ∅ []) 0%nat 0 0 r e w' Hrun).
Defined.

Lemma failure_leaves_stores_witness :
  let w := configuredWorld ∅ [None; Some (NativeError (-5))] in
  exists w',
    op_error (OpConfigInterface 0 0 1) w =
      Some (Some (Errorf "failed to set alternate config %d on interface %d of %s: %v"
                         [AInt 1; AInt 0; AConfig 0%nat; AError (NativeError (-5))]),
            w')
    /\ devices w' = devices w.
Proof.
  intros w.
  destruct (op_error (OpConfigInterface 0 0 1) w) as [[[e|] w']|] eqn:Hrun;
    [|vm_compute in Hrun; discriminate|vm_compute in Hrun; discriminate].
  destruct (failure_leaves_stores (OpConfigInterface 0 0 1) w e w' Hrun)
    as [Hdevs _].
  exists w'. split; [|done].
  vm_compute in Hrun. injection Hrun as <- <-. reflexivity.
Defined.

Lemma devices_frame_witness :
  let os := [OpDeviceConfig 0 2; OpConfigClose 0; OpDeviceClose 0] in
  exists w' dev',
    run_ops os (openWorld []) = Some w'
    /\ devices w' !! 0%nat = Some dev'
    /\ Device_Descriptor dev' = exampleDescriptor.
Proof.
  intros os.
  destruct (run_ops os (openWorld [])) as [w'|] eqn:Hrun;
    [|vm_compute in Hrun; discriminate].
  destruct (devices_frame os (openWorld []) w' Hrun) as [_ Hframe].
  destruct (Hframe 0%nat (mkDevice (Some 7%nat) exampleDescriptor None))
    as (dev' & Hd & Hdesc & _); [reflexivity|].
  exists w', dev'. by split_and!.
Defined.

Lemma configs_frame_witness :
  let os := [OpConfigInterface 0 0 0; OpConfigClose 0; OpDeviceReset 0] in
  exists w' cfg',
    run_ops os (configuredWorld {[ 2 := true ]} []) = Some w'
    /\ configs w' !! 0%nat = Some cfg'
    /\ Config_Info cfg' = exampleInfo
    /\ is_Some (Config_claimed cfg' !! 2).
Proof.
  intros os.
  destruct (run_ops os (configuredWorld {[ 2 := true ]} [])) as [w'|] eqn:Hrun;
    [|vm_compute in Hrun; discriminate].
  destruct (configs_frame os _ w' 0%nat
              (mkConfig exampleInfo 0 0%nat {[ 2 := true ]}) Hrun)
    as (cfg' & Hc & Hinfo & _ & _ & Hkeys); [reflexivity|].
  exists w', cfg'. split_and!; try done.
  apply Hkeys. by eexists.
Defined.

Lemma close_calls_witness :
  let os := [OpDeviceClose 0; OpDeviceClose 0; OpDeviceReset 0] in
  exists w' evs,
    run_ops os (openWorld []) = Some w'
    /\ trace w' = evs
    /\ CallClose None ∉ native_calls evs.
Proof.
  intros os.
  destruct (run_ops os (openWorld [])) as [w'|] eqn:Hrun;
    [|vm_compute in Hrun; discriminate].
  destruct (close_calls os (openWorld []) w' Hrun) as (evs & Htrace & Hclose).
  exists w', evs. split_and!; [done|done|].
  intros Hin. by destruct (Hclose None Hin) as [Hnil _].
Defined.

Lemma mutexes_released_witness :
  exists w' evs,
    run_op (OpConfigClose 0) (configuredWorld ∅ []) = Some w'
    /\ trace w' = evs
    /\ held_after [] evs = [].
Proof.
  destruct (run_op (OpConfigClose 0) (configuredWorld ∅ [])) as [w'|] eqn:Hrun;
    [|vm_compute in Hrun; discriminate].
  destruct (mutexes_released (OpConfigClose 0) _ w' Hrun)
    as (evs & Htrace & Hheld & _).
  exists w', evs. by split_and!.
Defined.

Lemma Config_String_same_device_witness :
  let cfg1 := mkConfig exampleInfo 0 0%nat ∅ in
  let cfg2 := mkConfig (mkConfigInfo 2 true false 0 [mkInterfaceInfo [tt]])
                       0 0%nat ∅ in
  let w : World unit (list (option (error unit))) :=
    mkWorld {[ 0%nat := mkDevice (Some 7%nat) exampleDescriptor (Some 1%nat) ]}
            {[ 0%nat := cfg1; 1%nat := cfg2 ]} [] [] in
  exists s1 s2,
    Config_String (fun _ => "dev"%string) 0 w = Some (s1, w)
    /\ Config_String (fun _ => "dev"%string) 1 w = Some (s2, w)
    /\ s1 <> s2.
Proof.
  intros cfg1 cfg2 w.
  destruct (Config_String_same_device (fun _ => "dev"%string) w 0%nat cfg1 1%nat cfg2
              (mkDevice (Some 7%nat) exampleDescriptor (Some 1%nat)))
    as (s1 & s2 & H1 & H2 & Hiff); [reflexivity|reflexivity|reflexivity|reflexivity|].
  exists s1, s2. split_and!; [done|done|].
  intros Heq. apply Hiff in Heq. discriminate.
Defined.

Lemma run_ops_pointers_valid_witness :
  let os := [OpConfigInterface 0 0 0; OpConfigClose 0; OpDeviceConfig 0 2] in
  exists w',
    run_ops os (configuredWorld ∅ []) = Some w' /\ pointers_valid w'.
Proof.
  intros os.
  destruct (run_ops os (configuredWorld ∅ [])) as [w'|] eqn:Hrun;
    [|vm_compute in Hrun; discriminate].
  exists w'. split; [done|].
  apply (run_ops_pointers_valid os (configuredWorld ∅ []) w');
    [apply configuredWorld_pointers_valid|done].
Defined.
